(** * crawl4ai-mcp-server: the tool-call dispatcher and the markdown normalizer

    A shallow embedding of [src/index.ts].  JavaScript values that travel
    through the handler (tool arguments, response bodies, thrown errors) are
    modelled by an inductive type of JSON-like values; exceptions are an explicit
    result type; the outbound HTTP traffic and the back-off timers are recorded
    in a trace threaded through a small state-and-exception monad.  The
    diagnostics written with [console.error] are left out. *)

From Stdlib Require Import List String Ascii ZArith Bool Lia Arith.
From Stdlib Require Import DecimalString.
Import ListNotations.
Open Scope string_scope.
Set Warnings "-register-all".

(** ** JavaScript values *)

(** The values the program inspects.  The program never computes with a
    number: it tests numbers for truthiness and prints them.  A number is
    therefore kept as what can be observed of it: whether it is falsy ([0],
    [-0] or [NaN]) and the text JavaScript prints for it ([String(x)], such
    as [0.5], [1e+21] or [500]). *)
Inductive value : Type :=
| VUndefined
| VNull
| VBool (b : bool)
| VNumber (zero : bool) (printed : string)
| VStr (s : string)
| VArr (items : list value)
| VObj (fields : list (string * value)).

Definition string_of_Z (n : Z) : string := NilZero.string_of_int (Z.to_int n).

(** The number with the integer value [n], for the integers that JavaScript
    holds exactly and prints as their decimal digits (among them the HTTP
    status codes and the constants of the configuration). *)
Definition VNum (n : Z) : value := VNumber (n =? 0)%Z (string_of_Z n).

(** The four kinds of thrown values that occur: errors produced by the axios
    client, protocol faults of the MCP SDK, the runtime's [TypeError], and any
    other rejected value. *)
Inductive ErrorCode : Type := MethodNotFound | InvalidParams | InternalError.

Record AxiosRequestConfig : Type := mkConfig {
  baseURL : option string;
  url : option string;
  method : option string;
  headers : list (string * string);
  timeout : Z
}.

Record AxiosResponse : Type := mkResponse {
  status : Z;
  data : value
}.

Inductive error : Type :=
| AxiosError (message : string) (config : option AxiosRequestConfig)
             (response : option AxiosResponse)
| McpError (code : ErrorCode) (message : string)
| TypeError (message : string)
| OtherError (thrown : value).

(** [axios.isAxiosError(e)] *)
Definition isAxiosError (e : error) : bool :=
  match e with
  | AxiosError _ _ _ => true
  | _ => false
  end.

(** Outcome of an expression that may throw. *)
Inductive res (A : Type) : Type :=
| Ret (a : A)
| Throw (e : error).
Arguments Ret {A} a.
Arguments Throw {A} e.

Definition res_bind {A B : Type} (r : res A) (k : A -> res B) : res B :=
  match r with
  | Ret a => k a
  | Throw e => Throw e
  end.

Declare Scope res_scope.
Delimit Scope res_scope with res.
Notation "x <- r ;; k" := (res_bind r (fun x => k))
  (at level 100, r at next level, right associativity) : res_scope.

Fixpoint mapM {A B : Type} (f : A -> res B) (l : list A) : res (list B) :=
  match l with
  | [] => Ret []
  | x :: rest =>
      (y <- f x ;; ys <- mapM f rest ;; Ret (y :: ys))%res
  end.

(** ** Primitive operations of the language *)

(** [!!v] *)
Definition truthy (v : value) : bool :=
  match v with
  | VUndefined | VNull => false
  | VBool b => b
  | VNumber zero _ => negb zero
  | VStr s => negb (s =? EmptyString)
  | VArr _ | VObj _ => true
  end.

Definition typeof (v : value) : string :=
  match v with
  | VUndefined => "undefined"
  | VNull => "object"
  | VBool _ => "boolean"
  | VNumber _ _ => "number"
  | VStr _ => "string"
  | VArr _ | VObj _ => "object"
  end.

Definition isArray (v : value) : bool :=
  match v with
  | VArr _ => true
  | _ => false
  end.

(** The elements of an array value. *)
Definition elements (v : value) : list value :=
  match v with
  | VArr items => items
  | _ => []
  end.

Definition nullish (v : value) : bool :=
  match v with
  | VUndefined | VNull => true
  | _ => false
  end.

Fixpoint lookup (k : string) (fields : list (string * value)) : option value :=
  match fields with
  | [] => None
  | (k', v) :: rest => if k =? k' then Some v else lookup k rest
  end.

(** [v.k] on a value that is neither [null] nor [undefined].  Only objects
    carry the property names the program reads ([urls], [results], [markdown],
    [markdown_v2], [markdown_with_citations], [message], [detail]); on strings,
    numbers, booleans and arrays such a read yields [undefined]. *)
Definition field (v : value) (k : string) : value :=
  match v with
  | VObj fields =>
      match lookup k fields with
      | Some x => x
      | None => VUndefined
      end
  | _ => VUndefined
  end.

(** [v.k] in general: reading a property of [null] or [undefined] throws. *)
Definition get_prop (v : value) (k : string) : res value :=
  if nullish v
  then Throw (TypeError ("Cannot read properties of "
                           ++ (match v with VNull => "null" | _ => "undefined" end)
                           ++ " (reading '" ++ k ++ "')"))
  else Ret (field v k).

(** [v?.k] *)
Definition opt_prop (v : value) (k : string) : value :=
  if nullish v then VUndefined else field v k.

(** [a || b] *)
Definition js_or (a b : value) : value := if truthy a then a else b.

(** [String(v)] as the template literals and [Array.prototype.join] apply it.
    A parsed JSON object prints as [[object Object]] through the inherited
    [toString], unless it has a field of that name: the field shadows the
    method, is not callable, and the conversion throws. *)
Definition object_to_primitive_fails (fields : list (string * value)) : bool :=
  match lookup "toString" fields with
  | Some _ => true
  | None => false
  end.

Fixpoint ToString (v : value) : res string :=
  match v with
  | VUndefined => Ret "undefined"
  | VNull => Ret "null"
  | VBool true => Ret "true"
  | VBool false => Ret "false"
  | VNumber _ printed => Ret printed
  | VStr s => Ret s
  | VArr items =>
      (fix join_comma (l : list value) : res string :=
         match l with
         | [] => Ret EmptyString
         | x :: rest =>
             (s <- (if nullish x then Ret EmptyString else ToString x) ;;
              match rest with
              | [] => Ret s
              | _ => (r <- join_comma rest ;; Ret (s ++ "," ++ r))
              end)%res
         end) items
  | VObj fields =>
      if object_to_primitive_fails fields
      then Throw (TypeError "Cannot convert object to primitive value")
      else Ret "[object Object]"
  end.

(** [arr.join(sep)]: [null] and [undefined] elements print as the empty
    string, every other element through [ToString]. *)
Definition join_element (v : value) : res string :=
  if nullish v then Ret EmptyString else ToString v.

Definition join (sep : string) (arr : list value) : res string :=
  (parts <- mapM join_element arr ;; Ret (String.concat sep parts))%res.

(** [s.toUpperCase()] on ASCII text. *)
Definition upper_ascii (c : ascii) : ascii :=
  let n := nat_of_ascii c in
  if (97 <=? n)%nat && (n <=? 122)%nat then ascii_of_nat (n - 32) else c.

Fixpoint toUpperCase (s : string) : string :=
  match s with
  | EmptyString => EmptyString
  | String c rest => String (upper_ascii c) (toUpperCase rest)
  end.

(** ** Module-level definitions of [index.ts] *)

(** [const isValidCrawlRequest = (args: any): args is CrawlRequest] *)
Definition isValidCrawlRequest (args : value) : bool :=
  if negb (truthy args) || negb (typeof args =? "object") then false
  else if negb (isArray (field args "urls"))
          || negb (match field args "urls" with
                   | VArr urls => forallb (fun u => typeof u =? "string") urls
                   | _ => false
                   end)
  then false
  else true.

Definition no_markdown : string :=
  "Error: No markdown content available for this URL".

(** [const extractMarkdown = (result: any): string].  The first property read
    throws on [null] and [undefined]; once it has returned, [result] and a
    truthy [markdown_v2] are known not to be nullish, so the remaining reads
    are plain field reads. *)
Definition extractMarkdown (result : value) : res value :=
  (v2 <- get_prop result "markdown_v2" ;;
   if truthy v2 && truthy (field v2 "markdown_with_citations")
   then Ret (field v2 "markdown_with_citations")
   else if truthy (field result "markdown")
   then Ret (field result "markdown")
   else if typeof result =? "string"
   then Ret result
   else Ret (VStr no_markdown))%res.

(** [process.env]: the two variables read at start-up. *)
Record environment : Type := mkEnv {
  CRAWL4AI_API_URL : option string;
  CRAWL4AI_AUTH_TOKEN : option string
}.

(** [process.env.CRAWL4AI_API_URL || 'http://127.0.0.1:11235'] *)
Definition API_URL (env : environment) : string :=
  match CRAWL4AI_API_URL env with
  | Some s => if s =? EmptyString then "http://127.0.0.1:11235" else s
  | None => "http://127.0.0.1:11235"
  end.

Definition AUTH_TOKEN (env : environment) : option string :=
  CRAWL4AI_AUTH_TOKEN env.

Definition DEFAULT_CONFIG : list (string * value) :=
  [ ("priority", VNum 10);
    ("magic", VBool true);
    ("crawler_params",
      VObj [ ("headless", VBool true);
             ("page_timeout", VNum 30000);
             ("remove_overlay_elements", VBool true);
             ("browser_type", VStr "chromium");
             ("scan_full_page", VBool true);
             ("user_agent_mode", VStr "random");
             ("user_agent_generator_config",
               VObj [ ("device_type", VStr "mobile");
                      ("os_type", VStr "android") ]) ]);
    ("bypass_cache", VBool true);
    ("ignore_images", VBool true) ].

Definition retryCount : nat := 3.

(** ** The axios client and the outside world *)

(** What the remote end does with one request. *)
Inductive outcome : Type :=
| Replied (code : Z) (body : value)
| NoReply (reason : string)
| Rejected (e : error).

Inductive event : Type :=
| ERequest (cfg : AxiosRequestConfig) (body : option value)
| ESetTimeout (ms : Z).

Definition is_request (ev : event) : bool :=
  match ev with
  | ERequest _ _ => true
  | ESetTimeout _ => false
  end.

Definition requests (tr : list event) : list event := filter is_request tr.

(** [axios.defaults]: no base URL, no extra headers, and [timeout: 0], which
    axios documents as "no timeout". *)
Definition axios_defaults : AxiosRequestConfig :=
  {| baseURL := None; url := None; method := None; headers := []; timeout := 0 |}.

(** [axios.create(cfg)]: an instance whose defaults are [cfg] over
    [axios.defaults]. *)
Definition axios_create (base : option string) (hdrs : list (string * string))
    (tmo : Z) : AxiosRequestConfig :=
  {| baseURL := base; url := None; method := None;
     headers := (headers axios_defaults ++ hdrs)%list; timeout := tmo |}.

(** The configuration of one request sent through a client with defaults
    [defaults]. *)
Definition request_config (defaults : AxiosRequestConfig) (m u : string)
    (hdrs : list (string * string)) : AxiosRequestConfig :=
  {| baseURL := baseURL defaults; url := Some u; method := Some m;
     headers := (headers defaults ++ hdrs)%list; timeout := timeout defaults |}.

(** How axios settles the promise: a 2xx reply resolves; any other status
    rejects with an [AxiosError] that carries the request's configuration and
    the response; a transport failure rejects with an [AxiosError] without a
    response. *)
Definition settle (cfg : AxiosRequestConfig) (o : outcome) : res AxiosResponse :=
  match o with
  | Replied code body =>
      if (200 <=? code)%Z && (code <? 300)%Z
      then Ret {| status := code; data := body |}
      else Throw (AxiosError ("Request failed with status code " ++ string_of_Z code)
                             (Some cfg)
                             (Some {| status := code; data := body |}))
  | NoReply reason => Throw (AxiosError reason (Some cfg) None)
  | Rejected e => Throw e
  end.

(** ** Effects: a trace of outbound events, with exceptions *)

Definition M (A : Type) : Type := list event -> res A * list event.

Definition ret {A : Type} (a : A) : M A := fun tr => (Ret a, tr).

Definition throw {A : Type} (e : error) : M A := fun tr => (Throw e, tr).

Definition bind {A B : Type} (m : M A) (k : A -> M B) : M B :=
  fun tr =>
    match m tr with
    | (Ret a, tr') => k a tr'
    | (Throw e, tr') => (Throw e, tr')
    end.

Definition try_catch {A : Type} (m : M A) (handler : error -> M A) : M A :=
  fun tr =>
    match m tr with
    | (Ret a, tr') => (Ret a, tr')
    | (Throw e, tr') => handler e tr'
    end.

Definition lift {A : Type} (r : res A) : M A := fun tr => (r, tr).

Declare Scope M_scope.
Delimit Scope M_scope with M.
Notation "x <- m ;; k" := (bind m (fun x => k))
  (at level 100, m at next level, right associativity) : M_scope.

(** ** The server *)

Record CallToolRequest : Type := mkRequest {
  name : string;
  arguments : value
}.

Record TextContent : Type := mkText {
  type : string;
  text : string
}.

Record ToolCallResult : Type := mkResult {
  content : list TextContent;
  isError : option bool
}.

(** The variables of the retry loop. *)
Record loop_vars : Type := mkVars {
  response : option AxiosResponse;
  lastError : option error
}.

Inductive flow : Type := Break | Continue.

Definition nl : string := String (ascii_of_nat 10) EmptyString.

(** The separator ['\n\n---\n\n']. *)
Definition separator : string := nl ++ nl ++ "---" ++ nl ++ nl.

(** The delay [1000 * Math.pow(2, attempt - 1)]. *)
Definition backoff (attempt : nat) : Z := 1000 * 2 ^ (Z.of_nat attempt - 1).

Section Server.

Variable env : environment.

(** What the crawling service answers to the request number [i] (from 0)
    of the trace. *)
Variable net : nat -> outcome.

(** Sending a request through a client with defaults [defaults]: the event
    is recorded and the promise settles as the remote end decides. *)
Definition axios_request (defaults : AxiosRequestConfig) (m u : string)
    (hdrs : list (string * string)) (body : option value) : M AxiosResponse :=
  fun tr =>
    let cfg := request_config defaults m u hdrs in
    (settle cfg (net (List.length (requests tr))), (tr ++ [ERequest cfg body])%list).

(** [axios.post(url, data, {headers})] on the default client. *)
Definition axios_post (u : string) (body : value)
    (hdrs : list (string * string)) : M AxiosResponse :=
  axios_request axios_defaults "post" u hdrs (Some body).

(** [await new Promise(resolve => setTimeout(resolve, delay))] *)
Definition sleep (ms : Z) : M unit :=
  fun tr => (Ret tt, (tr ++ [ESetTimeout ms])%list).

(** The headers built under [if (AUTH_TOKEN)]: an [Authorization] header
    when the token is set and not the empty string. *)
Definition auth_headers : list (string * string) :=
  match AUTH_TOKEN env with
  | Some token =>
      if token =? EmptyString
      then []
      else [("Authorization", "Bearer " ++ token)]
  | None => []
  end.

(** [this.axiosInstance], created in the constructor. *)
Definition axiosInstance : AxiosRequestConfig :=
  axios_create (Some (API_URL env)) auth_headers 60000.

(** The request body [{...DEFAULT_CONFIG, urls: request.params.arguments.urls}]. *)
Definition payload (args : value) : value :=
  VObj (DEFAULT_CONFIG ++ [("urls", field args "urls")])%list.

(** One iteration of the loop body: the inner [try] and its [catch]. *)
Definition attempt_body (args : value) (attempt : nat) (vars : loop_vars)
    : M (flow * loop_vars) :=
  try_catch
    (r <- axios_post (API_URL env ++ "/crawl_direct") (payload args) auth_headers ;;
     ret (Break, {| response := Some r; lastError := lastError vars |}))%M
    (fun error =>
       let vars' := {| response := response vars; lastError := Some error |} in
       if (attempt <? retryCount)%nat
       then (_ <- sleep (backoff attempt) ;; ret (Continue, vars'))%M
       else ret (Continue, vars')).

(** [for (let attempt = ...; attempt <= this.retryCount; attempt++)]; the
    first argument bounds the number of iterations left. *)
Fixpoint for_attempts (iterations : nat) (args : value) (attempt : nat)
    (vars : loop_vars) : M loop_vars :=
  if (attempt <=? retryCount)%nat then
    match iterations with
    | O => ret vars
    | S iterations' =>
        (step <- attempt_body args attempt vars ;;
         match step with
         | (Break, vars') => ret vars'
         | (Continue, vars') => for_attempts iterations' args (S attempt) vars'
         end)%M
    end
  else ret vars.

(** The outer [catch (error)] block; the first branch is the case
    [axios.isAxiosError(error)]. *)
Definition on_error (error : error) : M ToolCallResult :=
  match error with
  | AxiosError message config response =>
      let statusCode :=
        match response with
        | Some r => VNum (status r)
        | None => VUndefined
        end in
      let body :=
        match response with
        | Some r => data r
        | None => VUndefined
        end in
      let message :=
        js_or (js_or (opt_prop body "message") (opt_prop body "detail"))
              (VStr message) in
      let requestInfo :=
        match config with
        | Some c =>
            (match method c with
             | Some m => toUpperCase m
             | None => "undefined"
             end)
            ++ " "
            ++ (match url c with
                | Some u => u
                | None => "undefined"
                end)
        | None => "Unknown request"
        end in
      (code <- lift (ToString statusCode) ;;
       msg <- lift (ToString message) ;;
       ret {| content :=
                [ {| type := "text";
                     text := "Crawling service error (" ++ code ++ ") for "
                               ++ requestInfo ++ ": " ++ msg |} ];
              isError := Some true |})%M
  | _ => throw error
  end.

(** The three-way choice of the result sequence. *)
Definition resolve_results (body : value) : list value :=
  if truthy (field body "results") && isArray (field body "results")
  then elements (field body "results")
  else if isArray body
  then elements body
  else [body].

(** What the outer [try] does with the response once the loop has left
    one: the emptiness check, the choice of the result sequence, the
    normalizer on each element and the join.  No request is sent here. *)
Definition reply_of (response : AxiosResponse) : res ToolCallResult :=
  if negb (truthy (data response))
  then Throw (McpError InternalError "Empty response from crawling service")
  else
    (markdownResults <- mapM extractMarkdown (resolve_results (data response)) ;;
     joined <- join separator markdownResults ;;
     Ret {| content := [ {| type := "text"; text := joined |} ];
            isError := None |})%res.

(** The body of the outer [try]. *)
Definition crawl (args : value) : M ToolCallResult :=
  (vars <- for_attempts retryCount args 1 {| response := None; lastError := None |} ;;
   match response vars with
   | None =>
       throw (match lastError vars with
              | Some e => e
              | None => OtherError VUndefined
              end)
   | Some response => lift (reply_of response)
   end)%M.

(** The handler registered for [CallToolRequestSchema]. *)
Definition call_tool (request : CallToolRequest) : M ToolCallResult :=
  if negb (name request =? "crawl_urls")
  then throw (McpError MethodNotFound ("Unknown tool: " ++ name request))
  else if negb (isValidCrawlRequest (arguments request))
  then throw (McpError InvalidParams "Invalid crawl request parameters")
  else try_catch (crawl (arguments request)) on_error.

(** The start-up probe of [run]: [this.axiosInstance.get('/health')],
    whose failure is only logged. *)
Definition health_probe : M unit :=
  try_catch
    (_ <- axios_request axiosInstance "get" "/health" [] None ;; ret tt)%M
    (fun _ => ret tt).

End Server.

(** ** Vocabulary of the statements *)

(** The configuration axios gives each crawl request. *)
Definition post_config (env : environment) : AxiosRequestConfig :=
  request_config axios_defaults "post" (API_URL env ++ "/crawl_direct")
                 (auth_headers env).

(** The event of one crawl request. *)
Definition post_event (env : environment) (args : value) : event :=
  ERequest (post_config env) (Some (payload args)).

(** How request number [i] of a call settles. *)
Definition attempt (env : environment) (net : nat -> outcome) (i : nat)
    : res AxiosResponse :=
  settle (post_config env) (net i).

(** The response of the first attempt that succeeds among the three, or
    else the error of the third. *)
Definition delivered (env : environment) (net : nat -> outcome)
    : res AxiosResponse :=
  match attempt env net 0 with
  | Ret r => Ret r
  | Throw _ =>
      match attempt env net 1 with
      | Ret r => Ret r
      | Throw _ => attempt env net 2
      end
  end.

(** The events of a call whose arguments passed validation. *)
Definition transcript (env : environment) (net : nat -> outcome) (args : value)
    : list event :=
  let P := post_event env args in
  match attempt env net 0 with
  | Ret _ => [P]
  | Throw _ =>
      match attempt env net 1 with
      | Ret _ => [P; ESetTimeout (backoff 1); P]
      | Throw _ => [P; ESetTimeout (backoff 1); P; ESetTimeout (backoff 2); P]
      end
  end.

(** The timeouts of the requests of a trace, in order. *)
Definition request_timeouts (tr : list event) : list Z :=
  flat_map (fun ev => match ev with
                      | ERequest cfg _ => [timeout cfg]
                      | ESetTimeout _ => []
                      end) tr.

(** [t] occurs inside [s]. *)
Definition embeds (s t : string) : Prop :=
  exists before after, s = before ++ t ++ after.

(** A field that is there: neither missing nor [null]. *)
Definition present (v : value) : bool := negb (nullish v).

(** The resolution order of the normalizer as the specification words it,
    with "present" where the code tests truthiness. *)
Definition normalizer_as_specified (item : value) : value :=
  if present (field (field item "markdown_v2") "markdown_with_citations")
  then field (field item "markdown_v2") "markdown_with_citations"
  else if present (field item "markdown")
  then field item "markdown"
  else match item with
       | VStr _ => item
       | _ => VStr no_markdown
       end.

Definition is_string (v : value) : bool :=
  match v with
  | VStr _ => true
  | _ => false
  end.

Definition text_result (t : string) (flag : option bool) : ToolCallResult :=
  {| content := [ {| type := "text"; text := t |} ]; isError := flag |}.

(** ** Sample inputs *)

Module Sample.

Definition env : environment :=
  {| CRAWL4AI_API_URL := None; CRAWL4AI_AUTH_TOKEN := None |}.

Definition request : CallToolRequest :=
  {| name := "crawl_urls";
     arguments := VObj [("urls", VArr [VStr "https://example.com"])] |}.

Definition unknown_tool : CallToolRequest :=
  {| name := "fetch"; arguments := VObj [] |}.

Definition bad_urls : CallToolRequest :=
  {| name := "crawl_urls"; arguments := VObj [("urls", VArr [VNum 7])] |}.

(** The service answers every request with the same outcome. *)
Definition always (o : outcome) : nat -> outcome := fun _ => o.

(** Two failures without a reply, then the given outcome. *)
Definition third (o : outcome) : nat -> outcome :=
  fun i =>
    match i with
    | 0%nat => NoReply "connect ECONNREFUSED 127.0.0.1:11235"
    | 1%nat => Replied 503 (VStr "busy")
    | _ => o
    end.

(** Items of the shapes the normalizer knows, and one it does not. *)
Definition cited : value :=
  VObj [("markdown_v2", VObj [("markdown_with_citations", VStr "A")])].

Definition plain : value := VObj [("markdown", VStr "B")].

Definition wrapped : value := VObj [("page", VObj [("markdown", VStr "B")])].

(** An error body whose message cannot be converted to a string. *)
Definition unprintable_message : value :=
  VObj [("message", VObj [("toString", VNum 1)])].

Definition two_pages : value :=
  VObj [("results", VArr [ VObj [("markdown", VStr "X")];
                           VObj [("markdown", VStr "Y")] ])].

End Sample.

(** ** The tool listing and further vocabulary *)

(** The answer of the handler registered for [ListToolsRequestSchema]. *)
Definition list_tools : value :=
  VObj
    [ ("tools",
       VArr
         [ VObj
             [ ("name", VStr "crawl_urls");
               ("description",
                VStr "Crawl one or more URLs and return markdown content with citations");
               ("inputSchema",
                VObj
                  [ ("type", VStr "object");
                    ("properties",
                     VObj
                       [ ("urls",
                          VObj
                            [ ("type", VStr "array");
                              ("items", VObj [("type", VStr "string")]);
                              ("description", VStr "Array of URLs to crawl") ]) ]);
                    ("required", VArr [VStr "urls"]) ]) ] ]) ].

(** The comma join inside [ToString] of an array, as a function of its own. *)
Fixpoint join_comma (l : list value) : res string :=
  match l with
  | [] => Ret EmptyString
  | x :: rest =>
      (s <- (if nullish x then Ret EmptyString else ToString x) ;;
       match rest with
       | [] => Ret s
       | _ => (r <- join_comma rest ;; Ret (s ++ "," ++ r))
       end)%res
  end.

(** The names of the tools a listing announces. *)
Definition tool_names (listing : value) : list string :=
  flat_map (fun tool => match field tool "name" with
                        | VStr n => [n]
                        | _ => []
                        end)
           (elements (field listing "tools")).

(** The delays a trace asks for, in order. *)
Definition delays (tr : list event) : list Z :=
  flat_map (fun ev => match ev with
                      | ESetTimeout ms => [ms]
                      | ERequest _ _ => []
                      end) tr.

(** The configuration axios gives the health probe. *)
Definition health_config (env : environment) : AxiosRequestConfig :=
  {| baseURL := Some (API_URL env); url := Some "/health"; method := Some "get";
     headers := auth_headers env; timeout := 60000 |}.

Module Scenario.

Definition token_env : environment :=
  {| CRAWL4AI_API_URL := Some "http://crawler:11235";
     CRAWL4AI_AUTH_TOKEN := Some "s3cret" |}.

(** Arguments that carry more than [urls]. *)
Definition noisy_args : value :=
  VObj [ ("priority", VNum 1);
         ("urls", VArr [VStr "https://example.com"]);
         ("bypass_cache", VBool false) ].

(** A page whose [markdown] is the number [1e21]. *)
Definition large_number_page : value :=
  VObj [("markdown", VNumber false "1e+21")].

Definition plain_args : value :=
  VObj [("urls", VArr [VStr "https://example.com"])].

(** The first two attempts fail, the third is rejected with [e]. *)
Definition rejected_third (e : error) : nat -> outcome :=
  fun i =>
    match i with
    | 0%nat => NoReply "read ECONNRESET"
    | 1%nat => NoReply "read ECONNRESET"
    | _ => Rejected e
    end.

End Scenario.

(** ** The retry loop *)

Section RetryLoop.

Variable env : environment.
Variable net : nat -> outcome.
Variable args : value.

Lemma attempt_body_run (a : nat) (vars : loop_vars) (tr : list event) :
  attempt_body env net args a vars tr
  = match attempt env net (List.length (requests tr)) with
    | Ret r =>
        (Ret (Break, {| response := Some r; lastError := lastError vars |}),
         (tr ++ [post_event env args])%list)
    | Throw e =>
        (Ret (Continue, {| response := response vars; lastError := Some e |}),
         if (a <? retryCount)%nat
         then ((tr ++ [post_event env args]) ++ [ESetTimeout (backoff a)])%list
         else (tr ++ [post_event env args])%list)
    end.
Proof.
  unfold attempt_body, try_catch, bind, axios_post, axios_request, attempt,
    post_config, post_event, ret, sleep.
  destruct (settle _ _) as [r | e]; [reflexivity |].
  destruct (a <? retryCount)%nat; reflexivity.
Qed.

Lemma for_attempts_step (n a : nat) (vars : loop_vars) (tr : list event) :
  for_attempts env net (S n) args a vars tr
  = if (a <=? retryCount)%nat
    then match attempt_body env net args a vars tr with
         | (Ret (Break, vars'), tr') => (Ret vars', tr')
         | (Ret (Continue, vars'), tr') =>
             for_attempts env net n args (S a) vars' tr'
         | (Throw e, tr') => (Throw e, tr')
         end
    else (Ret vars, tr).
Proof.
  cbn [for_attempts]. destruct (a <=? retryCount)%nat; [| reflexivity].
  unfold bind. destruct (attempt_body env net args a vars tr) as [[[[|] v] | e] tr'];
    reflexivity.
Qed.

Lemma for_attempts_run :
  for_attempts env net retryCount args 1 {| response := None; lastError := None |} []
  = (Ret {| response := match delivered env net with
                        | Ret r => Some r
                        | Throw _ => None
                        end;
            lastError := match attempt env net 0 with
                         | Ret _ => None
                         | Throw e1 =>
                             match attempt env net 1 with
                             | Ret _ => Some e1
                             | Throw e2 =>
                                 match attempt env net 2 with
                                 | Ret _ => Some e2
                                 | Throw e3 => Some e3
                                 end
                             end
                         end |},
     transcript env net args).
Proof.
  unfold delivered, transcript, retryCount.
  rewrite for_attempts_step, attempt_body_run;
    cbn -[for_attempts attempt backoff post_config payload].
  destruct (attempt env net 0) as [r0 | e0]; [reflexivity |].
  rewrite for_attempts_step, attempt_body_run;
    cbn -[for_attempts attempt backoff post_config payload].
  destruct (attempt env net 1) as [r1 | e1]; [reflexivity |].
  rewrite for_attempts_step, attempt_body_run;
    cbn -[for_attempts attempt backoff post_config payload].
  destruct (attempt env net 2) as [r2 | e2]; reflexivity.
Qed.

End RetryLoop.

(** ** The handler as a whole *)

Lemma on_error_trace (e : error) (tr : list event) : snd (on_error e tr) = tr.
Proof.
  destruct e as [msg cfg rsp | | |]; try reflexivity.
  unfold on_error, bind, lift, ret.
  destruct (ToString _); [| reflexivity].
  destruct (ToString _); reflexivity.
Qed.

Lemma crawl_run (env : environment) (net : nat -> outcome) (args : value) :
  crawl env net args []
  = ((r <- delivered env net ;; reply_of r)%res, transcript env net args).
Proof.
  unfold crawl, bind. rewrite for_attempts_run. cbn [response lastError].
  unfold delivered.
  destruct (attempt env net 0) as [r0 | e0]; [reflexivity |].
  destruct (attempt env net 1) as [r1 | e1]; [reflexivity |].
  destruct (attempt env net 2) as [r2 | e2]; reflexivity.
Qed.

Lemma call_tool_run (env : environment) (net : nat -> outcome)
    (request : CallToolRequest) :
  name request = "crawl_urls" ->
  isValidCrawlRequest (arguments request) = true ->
  call_tool env net request []
  = match (r <- delivered env net ;; reply_of r)%res with
    | Ret result => (Ret result, transcript env net (arguments request))
    | Throw e => on_error e (transcript env net (arguments request))
    end.
Proof.
  intros Hname Hvalid. unfold call_tool.
  rewrite Hname, Hvalid. cbn [String.eqb Ascii.eqb Bool.eqb negb].
  unfold try_catch. rewrite crawl_run.
  destruct (res_bind _ _); reflexivity.
Qed.

Lemma call_tool_trace (env : environment) (net : nat -> outcome)
    (request : CallToolRequest) :
  name request = "crawl_urls" ->
  isValidCrawlRequest (arguments request) = true ->
  snd (call_tool env net request []) = transcript env net (arguments request).
Proof.
  intros Hname Hvalid. rewrite (call_tool_run env net request Hname Hvalid).
  destruct (res_bind _ _); [reflexivity | apply on_error_trace].
Qed.

(** C1. A call that passed validation sends at most three POST requests.
    After a failed first attempt it asks for a delay of [backoff 1 = 1000] ms
    and after a failed second attempt for [backoff 2 = 2000] ms, where
    [backoff n = 1000 * 2^(n-1)], whatever the errors were; no delay follows
    the third attempt.  When all three attempts fail, the outcome of the call
    is what the error handler makes of the third error alone. *)
Theorem retry_policy (env : environment) (net : nat -> outcome)
    (request : CallToolRequest) :
  name request = "crawl_urls" ->
  isValidCrawlRequest (arguments request) = true ->
  let P := post_event env (arguments request) in
  let run := call_tool env net request [] in
  (List.length (requests (snd run)) <= 3)%nat
  /\ (forall r, attempt env net 0 = Ret r -> snd run = [P])
  /\ (forall e1 r,
        attempt env net 0 = Throw e1 -> attempt env net 1 = Ret r ->
        snd run = [P; ESetTimeout (backoff 1); P])
  /\ (forall e1 e2,
        attempt env net 0 = Throw e1 -> attempt env net 1 = Throw e2 ->
        snd run = [P; ESetTimeout (backoff 1); P; ESetTimeout (backoff 2); P])
  /\ (forall e1 e2 e3,
        attempt env net 0 = Throw e1 -> attempt env net 1 = Throw e2 ->
        attempt env net 2 = Throw e3 ->
        run = on_error e3 [P; ESetTimeout (backoff 1); P; ESetTimeout (backoff 2); P])
  /\ (forall n : nat, backoff n = (1000 * 2 ^ (Z.of_nat n - 1))%Z)
  /\ backoff 1 = 1000%Z /\ backoff 2 = 2000%Z.
Proof.
  intros Hname Hvalid P run.
  assert (Htrace : snd run = transcript env net (arguments request))
    by (apply call_tool_trace; assumption).
  repeat split.
  - rewrite Htrace. unfold transcript.
    destruct (attempt env net 0); [cbn; lia |].
    destruct (attempt env net 1); cbn; lia.
  - intros r H0. rewrite Htrace. unfold transcript. now rewrite H0.
  - intros e1 r H0 H1. rewrite Htrace. unfold transcript. now rewrite H0, H1.
  - intros e1 e2 H0 H1. rewrite Htrace. unfold transcript. now rewrite H0, H1.
  - intros e1 e2 e3 H0 H1 H2. unfold run.
    rewrite (call_tool_run env net request Hname Hvalid).
    unfold delivered, transcript. rewrite H0, H1, H2. reflexivity.
Qed.

Lemma retry_policy_witness :
  call_tool Sample.env (Sample.always (NoReply "timeout")) Sample.request []
  = on_error (AxiosError "timeout" (Some (post_config Sample.env)) None)
      [ post_event Sample.env (arguments Sample.request); ESetTimeout 1000;
        post_event Sample.env (arguments Sample.request); ESetTimeout 2000;
        post_event Sample.env (arguments Sample.request) ].
Proof.
  pose proof (retry_policy Sample.env (Sample.always (NoReply "timeout"))
                Sample.request eq_refl eq_refl) as H.
  cbv zeta in H. destruct H as (_ & _ & _ & _ & H & _).
  exact (H _ _ _ eq_refl eq_refl eq_refl).
Defined.

(** ** The normalizer *)

Lemma field_of_falsy (v : value) (k : string) :
  truthy v = false -> field v k = VUndefined.
Proof. destruct v; cbn; intros H; try reflexivity; discriminate H. Qed.

Lemma typeof_string (v : value) : (typeof v =? "string") = is_string v.
Proof. destruct v; reflexivity. Qed.

Lemma extractMarkdown_run (item : value) :
  nullish item = false ->
  extractMarkdown item
  = Ret (if truthy (field (field item "markdown_v2") "markdown_with_citations")
         then field (field item "markdown_v2") "markdown_with_citations"
         else if truthy (field item "markdown")
         then field item "markdown"
         else if is_string item then item else VStr no_markdown).
Proof.
  intros Hitem. unfold extractMarkdown, get_prop. rewrite Hitem.
  cbn [res_bind]. rewrite typeof_string.
  destruct (truthy (field item "markdown_v2")) eqn:Hv2; cbn [andb].
  - destruct (truthy (field _ "markdown_with_citations")); [reflexivity |].
    destruct (truthy (field item "markdown")); [reflexivity |].
    destruct (is_string item); reflexivity.
  - rewrite (field_of_falsy _ "markdown_with_citations" Hv2). cbn [truthy].
    destruct (truthy (field item "markdown")); [reflexivity |].
    destruct (is_string item); reflexivity.
Qed.

(** C3, as amended.  On an item that is neither [null] nor [undefined] the
    normalizer returns, in this order: the value of
    [markdown_v2.markdown_with_citations] when that value is truthy; else the
    value of [markdown] when that value is truthy; else the item itself when
    it is a string; else the fixed sentinel.  Nothing else of the item is
    looked at. *)
Theorem normalizer_order (item : value) :
  nullish item = false ->
  let citations := field (field item "markdown_v2") "markdown_with_citations" in
  let markdown := field item "markdown" in
  (truthy citations = true -> extractMarkdown item = Ret citations)
  /\ (truthy citations = false -> truthy markdown = true ->
      extractMarkdown item = Ret markdown)
  /\ (truthy citations = false -> truthy markdown = false ->
      forall s, item = VStr s -> extractMarkdown item = Ret (VStr s))
  /\ (truthy citations = false -> truthy markdown = false ->
      is_string item = false -> extractMarkdown item = Ret (VStr no_markdown)).
Proof.
  intros Hitem citations markdown.
  rewrite (extractMarkdown_run item Hitem). fold citations markdown.
  repeat split.
  - intros ->. reflexivity.
  - intros -> ->. reflexivity.
  - intros -> -> s ->. reflexivity.
  - intros -> -> ->. reflexivity.
Qed.

Lemma normalizer_order_witness :
  extractMarkdown Sample.cited = Ret (VStr "A")
  /\ extractMarkdown Sample.plain = Ret (VStr "B")
  /\ extractMarkdown (VStr "C") = Ret (VStr "C")
  /\ extractMarkdown (VObj []) = Ret (VStr no_markdown)
  /\ extractMarkdown Sample.wrapped = Ret (VStr no_markdown).
Proof.
  refine (conj _ (conj _ (conj _ (conj _ _)))).
  - exact (proj1 (normalizer_order Sample.cited eq_refl) eq_refl).
  - exact (proj1 (proj2 (normalizer_order Sample.plain eq_refl)) eq_refl eq_refl).
  - exact (proj1 (proj2 (proj2 (normalizer_order (VStr "C") eq_refl)))
             eq_refl eq_refl "C" eq_refl).
  - exact (proj2 (proj2 (proj2 (normalizer_order (VObj []) eq_refl)))
             eq_refl eq_refl eq_refl).
  - exact (proj2 (proj2 (proj2 (normalizer_order Sample.wrapped eq_refl)))
             eq_refl eq_refl eq_refl).
Defined.

(** C3 as the specification states it fails: an item whose [markdown] field
    is present and holds the empty string does not get that value back. *)
Lemma normalizer_order_counterexample :
  ~ (forall item : value,
        nullish item = false ->
        extractMarkdown item = Ret (normalizer_as_specified item)).
Proof.
  intros H. specialize (H (VObj [("markdown", VStr EmptyString)]) eq_refl).
  discriminate H.
Qed.

(** C4 at the inputs where it fails: on [null] and on [undefined] the
    normalizer throws a [TypeError], and a response body that lists a [null]
    result makes the whole call fail with that error; a numeric [markdown]
    field comes back as a number, not as a string. *)
Theorem normalizer_throws_on_null :
  extractMarkdown VNull
  = Throw (TypeError "Cannot read properties of null (reading 'markdown_v2')")
  /\ extractMarkdown VUndefined
     = Throw (TypeError "Cannot read properties of undefined (reading 'markdown_v2')")
  /\ fst (call_tool Sample.env (Sample.always (Replied 200 (VArr [VNull])))
            Sample.request [])
     = Throw (TypeError "Cannot read properties of null (reading 'markdown_v2')")
  /\ extractMarkdown (VObj [("markdown", VNum 5)]) = Ret (VNum 5).
Proof. repeat split; reflexivity. Qed.

(** ** Validation *)

Lemma all_strings (urls : list value) :
  forallb (fun u => typeof u =? "string") urls = true
  <-> Forall (fun u => exists s, u = VStr s) urls.
Proof.
  rewrite forallb_forall, Forall_forall. split; intros H u Hu.
  - specialize (H u Hu). rewrite typeof_string in H.
    destruct u; try discriminate H. now eexists.
  - destruct (H u Hu) as [s ->]. reflexivity.
Qed.

Lemma isValidCrawlRequest_iff (args : value) :
  isValidCrawlRequest args = true
  <-> exists fields urls,
        args = VObj fields
        /\ lookup "urls" fields = Some (VArr urls)
        /\ Forall (fun u => exists s, u = VStr s) urls.
Proof.
  split.
  - unfold isValidCrawlRequest. intros H.
    destruct args as [| | b | n | s | items | fields];
      try (cbn in H; discriminate H);
      try (destruct b; cbn in H; discriminate H);
      try (destruct (truthy _); cbn in H; discriminate H).
    cbn [truthy typeof negb orb String.eqb] in H. cbn [field] in H.
    destruct (lookup "urls" fields) as [[| | | | | urls |] |] eqn:Hl;
      try (cbn in H; discriminate H).
    exists fields, urls. refine (conj eq_refl (conj Hl _)).
    apply all_strings. cbn in H.
    destruct (forallb _ urls); [reflexivity | discriminate H].
  - intros (fields & urls & -> & Hl & Hall).
    unfold isValidCrawlRequest. cbn [truthy typeof negb orb field].
    rewrite Hl. cbn [isArray negb orb].
    apply all_strings in Hall. rewrite Hall. reflexivity.
Qed.

(** C9, as amended.  Arguments that pass validation are an object whose
    [urls] field is an array all of whose elements are strings; nothing is
    required of the strings, and the array may be empty. *)
Theorem valid_request_shape (args : value) :
  isValidCrawlRequest args = true ->
  (exists fields urls,
      args = VObj fields
      /\ field args "urls" = VArr urls
      /\ forall u, In u urls -> exists s, u = VStr s)
  /\ isValidCrawlRequest (VObj [("urls", VArr [])]) = true
  /\ isValidCrawlRequest (VObj [("urls", VArr [VStr EmptyString])]) = true.
Proof.
  intros H. split; [| split; reflexivity].
  apply isValidCrawlRequest_iff in H. destruct H as (fields & urls & -> & Hl & Hall).
  exists fields, urls. cbn [field]. rewrite Hl.
  refine (conj eq_refl (conj eq_refl _)). now apply Forall_forall.
Qed.

Lemma valid_request_shape_witness :
  exists fields urls,
    arguments Sample.request = VObj fields
    /\ field (arguments Sample.request) "urls" = VArr urls
    /\ forall u, In u urls -> exists s, u = VStr s.
Proof.
  exact (proj1 (valid_request_shape (arguments Sample.request) eq_refl)).
Defined.

(** C9 as the specification states it fails: a request whose only URL is the
    empty string passes validation. *)
Lemma valid_request_shape_counterexample :
  ~ (forall args : value,
        isValidCrawlRequest args = true ->
        forall u, In u (elements (field args "urls")) ->
                  exists s, u = VStr s /\ s <> EmptyString).
Proof.
  intros H.
  destruct (H (VObj [("urls", VArr [VStr EmptyString])]) eq_refl
              (VStr EmptyString) (or_introl eq_refl)) as (s & Hs & Hne).
  injection Hs as <-. now apply Hne.
Qed.

(** C6.  A call that names another tool is answered by a [MethodNotFound]
    fault and a call to [crawl_urls] whose arguments are not an object with
    an array of strings under [urls] by an [InvalidParams] fault; in both
    cases no event is added to the trace.  Arguments whose [urls] array is
    empty pass validation, and the call goes on to send its request. *)
Theorem validation_faults (env : environment) (net : nat -> outcome)
    (request : CallToolRequest) (tr : list event) :
  (name request <> "crawl_urls" ->
   call_tool env net request tr
   = (Throw (McpError MethodNotFound ("Unknown tool: " ++ name request)), tr))
  /\ (name request = "crawl_urls" ->
      ~ (exists fields urls,
            arguments request = VObj fields
            /\ lookup "urls" fields = Some (VArr urls)
            /\ Forall (fun u => exists s, u = VStr s) urls) ->
      call_tool env net request tr
      = (Throw (McpError InvalidParams "Invalid crawl request parameters"), tr))
  /\ (forall fields,
        lookup "urls" fields = Some (VArr []) ->
        isValidCrawlRequest (VObj fields) = true)
  /\ (forall fields,
        name request = "crawl_urls" ->
        arguments request = VObj fields ->
        lookup "urls" fields = Some (VArr []) ->
        exists rest,
          snd (call_tool env net request [])
          = post_event env (arguments request) :: rest).
Proof.
  refine (conj _ (conj _ (conj _ _))).
  - intros Hname. unfold call_tool.
    apply String.eqb_neq in Hname. rewrite Hname. reflexivity.
  - intros Hname Hshape. unfold call_tool.
    rewrite Hname. cbn [String.eqb Ascii.eqb Bool.eqb negb].
    destruct (isValidCrawlRequest (arguments request)) eqn:Hvalid; [| reflexivity].
    exfalso. apply Hshape. now apply isValidCrawlRequest_iff.
  - intros fields Hl. apply isValidCrawlRequest_iff.
    exists fields, []. refine (conj eq_refl (conj _ _)); [assumption | constructor].
  - intros fields Hname Hargs Hl.
    assert (Hvalid : isValidCrawlRequest (arguments request) = true).
    { rewrite Hargs. apply isValidCrawlRequest_iff.
      exists fields, []. refine (conj eq_refl (conj _ _)); [assumption | constructor]. }
    rewrite (call_tool_trace env net request Hname Hvalid). unfold transcript.
    destruct (attempt env net 0); [now eexists |].
    destruct (attempt env net 1); now eexists.
Qed.

Lemma validation_faults_witness :
  call_tool Sample.env (Sample.always (NoReply "timeout")) Sample.unknown_tool []
  = (Throw (McpError MethodNotFound "Unknown tool: fetch"), [])
  /\ call_tool Sample.env (Sample.always (NoReply "timeout")) Sample.bad_urls []
     = (Throw (McpError InvalidParams "Invalid crawl request parameters"), []).
Proof.
  split.
  - refine (proj1 (validation_faults Sample.env _ Sample.unknown_tool []) _).
    discriminate.
  - refine (proj1 (proj2 (validation_faults Sample.env _ Sample.bad_urls []))
              eq_refl _).
    intros (fields & urls & Hargs & Hl & Hall). cbn in Hargs.
    injection Hargs as <-. cbn in Hl. injection Hl as <-.
    inversion Hall as [| u us [s Hs] _]. discriminate Hs.
Defined.

(** ** Replies to a delivered response *)

Lemma call_tool_delivered (env : environment) (net : nat -> outcome)
    (request : CallToolRequest) (r : AxiosResponse) :
  name request = "crawl_urls" ->
  isValidCrawlRequest (arguments request) = true ->
  delivered env net = Ret r ->
  call_tool env net request []
  = match reply_of r with
    | Ret result => (Ret result, transcript env net (arguments request))
    | Throw e => on_error e (transcript env net (arguments request))
    end.
Proof.
  intros Hname Hvalid Hr. rewrite (call_tool_run env net request Hname Hvalid).
  rewrite Hr. reflexivity.
Qed.

Lemma mapM_extractMarkdown_total (items : list value) :
  Forall (fun v => nullish v = false) items ->
  exists outputs, mapM extractMarkdown items = Ret outputs.
Proof.
  induction 1 as [| item rest Hitem _ (outs & IH)]; [now exists [] |].
  cbn [mapM]. rewrite (extractMarkdown_run item Hitem), IH. cbn [res_bind].
  now eexists.
Qed.

Lemma mapM_join_element_strings (texts : list string) :
  mapM join_element (map VStr texts) = Ret texts.
Proof.
  induction texts as [| t rest IH]; [reflexivity |].
  cbn [map mapM]. rewrite IH. reflexivity.
Qed.

Lemma resolve_results_truthy (body : value) :
  resolve_results body = [] -> truthy body = true.
Proof.
  unfold resolve_results.
  destruct body as [| | b | n | s | items | fields]; cbn;
    solve [discriminate | reflexivity].
Qed.

(** C2, as amended.  A delivered response whose body is not truthy ([null],
    [undefined], [false], [0], the empty string) ends the call in the
    [InternalError] fault.  For a body that is truthy, the result sequence is
    the [results] field when that field is an array, else the body when the
    body is an array, else the one-element sequence of the body.  Whenever
    the normalizer returns on every element (it does when no element is
    [null] or [undefined]) and its outputs convert to strings, the call
    returns a result without error flag whose single text block is those
    strings, in order, joined by the separator; when the outputs are strings
    they are joined as they are. *)
Theorem reply_of_body (env : environment) (net : nat -> outcome)
    (request : CallToolRequest) (r : AxiosResponse) :
  name request = "crawl_urls" ->
  isValidCrawlRequest (arguments request) = true ->
  delivered env net = Ret r ->
  let body := data r in
  let run := call_tool env net request [] in
  (truthy body = false ->
   fst run = Throw (McpError InternalError "Empty response from crawling service"))
  /\ (forall items, field body "results" = VArr items -> resolve_results body = items)
  /\ (forall items, body = VArr items -> resolve_results body = items)
  /\ (isArray (field body "results") = false -> isArray body = false ->
      resolve_results body = [body])
  /\ (Forall (fun v => nullish v = false) (resolve_results body) ->
      exists outputs, mapM extractMarkdown (resolve_results body) = Ret outputs)
  /\ (truthy body = true ->
      forall outputs parts,
        mapM extractMarkdown (resolve_results body) = Ret outputs ->
        mapM join_element outputs = Ret parts ->
        fst run = Ret (text_result (String.concat separator parts) None))
  /\ (truthy body = true ->
      forall texts,
        mapM extractMarkdown (resolve_results body) = Ret (map VStr texts) ->
        fst run = Ret (text_result (String.concat separator texts) None)).
Proof.
  intros Hname Hvalid Hr body run.
  assert (Hjoin : truthy body = true ->
           forall outputs parts,
             mapM extractMarkdown (resolve_results body) = Ret outputs ->
             mapM join_element outputs = Ret parts ->
             fst run = Ret (text_result (String.concat separator parts) None)).
  { intros Hbody outputs parts Hout Hparts. unfold run.
    rewrite (call_tool_delivered env net request r Hname Hvalid Hr).
    unfold reply_of. fold body. rewrite Hbody. cbn [negb]. rewrite Hout.
    cbn [res_bind]. unfold join. rewrite Hparts. reflexivity. }
  refine (conj _ (conj _ (conj _ (conj _ (conj _ (conj Hjoin _)))))).
  - intros Hbody. unfold run.
    rewrite (call_tool_delivered env net request r Hname Hvalid Hr).
    unfold reply_of. fold body. rewrite Hbody. reflexivity.
  - intros items Hres. unfold resolve_results. rewrite Hres. reflexivity.
  - intros items ->. reflexivity.
  - intros Hres Harr. unfold resolve_results. rewrite Hres, Harr.
    rewrite andb_false_r. reflexivity.
  - apply mapM_extractMarkdown_total.
  - intros Hbody texts Hout. apply (Hjoin Hbody _ _ Hout).
    apply mapM_join_element_strings.
Qed.

Lemma reply_of_body_witness :
  fst (call_tool Sample.env (Sample.third (Replied 200 Sample.two_pages))
         Sample.request [])
  = Ret (text_result ("X" ++ nl ++ nl ++ "---" ++ nl ++ nl ++ "Y") None)
  /\ fst (call_tool Sample.env (Sample.third (Replied 200 (VNum 0)))
            Sample.request [])
     = Throw (McpError InternalError "Empty response from crawling service").
Proof.
  split.
  - pose proof (reply_of_body Sample.env (Sample.third (Replied 200 Sample.two_pages))
                  Sample.request {| status := 200; data := Sample.two_pages |}
                  eq_refl eq_refl eq_refl) as H.
    cbv zeta in H. destruct H as (_ & _ & _ & _ & _ & _ & H).
    exact (H eq_refl ["X"; "Y"] eq_refl).
  - pose proof (reply_of_body Sample.env (Sample.third (Replied 200 (VNum 0)))
                  Sample.request {| status := 200; data := VNum 0 |}
                  eq_refl eq_refl eq_refl) as H.
    cbv zeta in H. destruct H as (H & _).
    exact (H eq_refl).
Defined.

(** C2 as the specification states it fails: the body [false] is neither
    [null] nor absent, and the call ends in a fault instead of a result. *)
Lemma reply_of_body_counterexample :
  ~ (forall (env : environment) (net : nat -> outcome) (request : CallToolRequest)
            (r : AxiosResponse),
        name request = "crawl_urls" ->
        isValidCrawlRequest (arguments request) = true ->
        delivered env net = Ret r ->
        nullish (data r) = false ->
        exists result, fst (call_tool env net request []) = Ret result).
Proof.
  intros H.
  destruct (H Sample.env (Sample.always (Replied 200 (VBool false))) Sample.request
              {| status := 200; data := VBool false |}
              eq_refl eq_refl eq_refl eq_refl) as [result Hresult].
  discriminate Hresult.
Qed.

(** C10.  When the result sequence of a delivered response is empty, the
    call returns a result without error flag whose single text block is the
    empty string. *)
Theorem empty_results_reply (env : environment) (net : nat -> outcome)
    (request : CallToolRequest) (r : AxiosResponse) :
  name request = "crawl_urls" ->
  isValidCrawlRequest (arguments request) = true ->
  delivered env net = Ret r ->
  resolve_results (data r) = [] ->
  fst (call_tool env net request []) = Ret (text_result EmptyString None).
Proof.
  intros Hname Hvalid Hr Hempty.
  rewrite (call_tool_delivered env net request r Hname Hvalid Hr).
  unfold reply_of. rewrite (resolve_results_truthy _ Hempty), Hempty.
  reflexivity.
Qed.

Lemma empty_results_reply_witness :
  fst (call_tool Sample.env (Sample.always (Replied 200 (VObj [("results", VArr [])])))
         Sample.request [])
  = Ret (text_result EmptyString None).
Proof.
  exact (empty_results_reply Sample.env
           (Sample.always (Replied 200 (VObj [("results", VArr [])])))
           Sample.request {| status := 200; data := VObj [("results", VArr [])] |}
           eq_refl eq_refl eq_refl eq_refl).
Defined.

(** C7.  When the attempt that succeeds (the first, second or third, all
    earlier ones having failed) brings a body that is [null] or absent, or
    falsy in any other way (an absent body reaches the handler as the empty
    string), the call ends in an [InternalError] fault, thrown and not
    returned as a result, and no request is sent after the one that
    succeeded. *)
Theorem empty_body_fault (env : environment) (net : nat -> outcome)
    (request : CallToolRequest) (k : nat) (r : AxiosResponse) :
  name request = "crawl_urls" ->
  isValidCrawlRequest (arguments request) = true ->
  (k < 3)%nat ->
  (forall j, (j < k)%nat -> exists e, attempt env net j = Throw e) ->
  attempt env net k = Ret r ->
  truthy (data r) = false ->
  fst (call_tool env net request [])
  = Throw (McpError InternalError "Empty response from crawling service")
  /\ List.length (requests (snd (call_tool env net request []))) = S k.
Proof.
  intros Hname Hvalid Hk Hfail Hr Hfalsy.
  assert (Hreply : reply_of r
                   = Throw (McpError InternalError "Empty response from crawling service")).
  { unfold reply_of. now rewrite Hfalsy. }
  assert (Hd : delivered env net = Ret r
               /\ List.length (requests (transcript env net (arguments request))) = S k).
  { unfold delivered, transcript.
    destruct k as [| [| [| k]]]; [| | | lia].
    - rewrite Hr. split; reflexivity.
    - destruct (Hfail 0%nat) as [e0 H0]; [lia |].
      rewrite H0, Hr. split; reflexivity.
    - destruct (Hfail 0%nat) as [e0 H0]; [lia |].
      destruct (Hfail 1%nat) as [e1 H1]; [lia |].
      rewrite H0, H1, Hr. split; reflexivity. }
  destruct Hd as [Hd Hlen].
  rewrite (call_tool_delivered env net request r Hname Hvalid Hd), Hreply.
  split; [reflexivity | exact Hlen].
Qed.

Lemma empty_body_fault_witness :
  (fst (call_tool Sample.env (Sample.third (Replied 200 VNull)) Sample.request [])
   = Throw (McpError InternalError "Empty response from crawling service")
   /\ List.length
        (requests (snd (call_tool Sample.env (Sample.third (Replied 200 VNull))
                          Sample.request [])))
      = 3%nat)
  /\ (fst (call_tool Sample.env (Sample.always (Replied 204 (VStr EmptyString)))
             Sample.request [])
      = Throw (McpError InternalError "Empty response from crawling service")
      /\ List.length
           (requests (snd (call_tool Sample.env
                             (Sample.always (Replied 204 (VStr EmptyString)))
                             Sample.request [])))
         = 1%nat).
Proof.
  split.
  - refine (empty_body_fault Sample.env (Sample.third (Replied 200 VNull))
              Sample.request 2 {| status := 200; data := VNull |}
              eq_refl eq_refl _ _ eq_refl eq_refl).
    + lia.
    + intros [| [| j]] Hj; [eexists; reflexivity | eexists; reflexivity | lia].
  - refine (empty_body_fault Sample.env
              (Sample.always (Replied 204 (VStr EmptyString)))
              Sample.request 0 {| status := 204; data := VStr EmptyString |}
              eq_refl eq_refl _ _ eq_refl eq_refl).
    + lia.
    + intros j Hj. lia.
Defined.

(** ** Error reports *)

Lemma append_assoc (a b c : string) : (a ++ b) ++ c = a ++ b ++ c.
Proof. induction a as [| ch a IH]; cbn; [reflexivity | now rewrite IH]. Qed.

Lemma append_nil_r (a : string) : a ++ EmptyString = a.
Proof. induction a as [| ch a IH]; cbn; [reflexivity | now rewrite IH]. Qed.

Lemma js_or_priority (a b c : value) :
  js_or (js_or a b) c
  = if truthy a then a else if truthy b then b else c.
Proof.
  unfold js_or. destruct (truthy a) eqn:Ha; [now rewrite Ha |].
  destruct (truthy b); reflexivity.
Qed.

Lemma on_error_rethrows (e : error) (tr : list event) :
  isAxiosError e = false -> on_error e tr = (Throw e, tr).
Proof. destruct e; [discriminate | reflexivity ..]. Qed.

(** C5, as amended.  Suppose all three attempts fail.  When the third one
    is a reply with a status outside 2xx, the message is the [message] field
    of the reply's body when truthy, else its [detail] field when truthy,
    else the text of the axios error.  If the message converts to a string,
    the call returns a result flagged [isError] whose text is
    "Crawling service error (status) for POST url: message" and thus embeds
    the status, the method with the URL, and the message; if the conversion
    throws, the call throws what the conversion threw.  When the third error
    is not an axios error, the call throws that error, as the [catch] block
    does with every error that is not an axios error. *)
Theorem transport_error_reply (env : environment) (net : nat -> outcome)
    (request : CallToolRequest) (e1 e2 : error) :
  name request = "crawl_urls" ->
  isValidCrawlRequest (arguments request) = true ->
  attempt env net 0 = Throw e1 ->
  attempt env net 1 = Throw e2 ->
  let run := call_tool env net request [] in
  (forall code body msg,
      net 2%nat = Replied code body ->
      ((200 <=? code)%Z && (code <? 300)%Z) = false ->
      ToString (if truthy (opt_prop body "message")
                then opt_prop body "message"
                else if truthy (opt_prop body "detail")
                then opt_prop body "detail"
                else VStr ("Request failed with status code " ++ string_of_Z code))
      = Ret msg ->
      let target := "POST " ++ API_URL env ++ "/crawl_direct" in
      let t := "Crawling service error (" ++ string_of_Z code ++ ") for "
                 ++ target ++ ": " ++ msg in
      fst run = Ret (text_result t (Some true))
      /\ embeds t (string_of_Z code)
      /\ embeds t target
      /\ embeds t msg)
  /\ (forall code body e,
        net 2%nat = Replied code body ->
        ((200 <=? code)%Z && (code <? 300)%Z) = false ->
        ToString (if truthy (opt_prop body "message")
                  then opt_prop body "message"
                  else if truthy (opt_prop body "detail")
                  then opt_prop body "detail"
                  else VStr ("Request failed with status code " ++ string_of_Z code))
        = Throw e ->
        fst run = Throw e)
  /\ (forall e3,
        attempt env net 2 = Throw e3 ->
        isAxiosError e3 = false ->
        fst run = Throw e3)
  /\ (forall (e : error) (tr : list event),
        isAxiosError e = false -> on_error e tr = (Throw e, tr)).
Proof.
  intros Hname Hvalid H0 H1 run.
  assert (Hrun : forall code body,
             net 2%nat = Replied code body ->
             ((200 <=? code)%Z && (code <? 300)%Z) = false ->
             fst run
             = fst (on_error
                      (AxiosError ("Request failed with status code " ++ string_of_Z code)
                                  (Some (post_config env))
                                  (Some {| status := code; data := body |}))
                      (transcript env net (arguments request)))).
  { intros code body Hnet Hcode. unfold run.
    rewrite (call_tool_run env net request Hname Hvalid).
    unfold delivered. rewrite H0, H1. unfold attempt. rewrite Hnet.
    unfold settle. rewrite Hcode. reflexivity. }
  refine (conj _ (conj _ (conj _ on_error_rethrows))).
  - intros code body msg Hnet Hcode Hmsg target t.
    refine (conj _ (conj _ (conj _ _))).
    + rewrite (Hrun code body Hnet Hcode).
      unfold on_error, bind, lift, ret. cbn [status data].
      rewrite js_or_priority, Hmsg. reflexivity.
    + exists "Crawling service error (", (") for " ++ target ++ ": " ++ msg).
      reflexivity.
    + exists ("Crawling service error (" ++ string_of_Z code ++ ") for "),
        (": " ++ msg).
      unfold t. now rewrite !append_assoc.
    + exists ("Crawling service error (" ++ string_of_Z code ++ ") for "
                ++ target ++ ": "), EmptyString.
      unfold t. now rewrite append_nil_r, !append_assoc.
  - intros code body e Hnet Hcode Hmsg.
    rewrite (Hrun code body Hnet Hcode).
    unfold on_error, bind, lift, ret. cbn [status data].
    rewrite js_or_priority, Hmsg. reflexivity.
  - intros e3 H2 Haxios. unfold run.
    rewrite (call_tool_run env net request Hname Hvalid).
    unfold delivered. rewrite H0, H1, H2. cbn [res_bind].
    now rewrite on_error_rethrows.
Qed.

Lemma transport_error_reply_witness :
  let boom := Replied 500 (VObj [("detail", VStr "boom")]) in
  let t := "Crawling service error (500) for POST http://127.0.0.1:11235/crawl_direct: boom" in
  fst (call_tool Sample.env (Sample.always boom) Sample.request [])
  = Ret (text_result t (Some true))
  /\ embeds t "500"
  /\ embeds t "POST http://127.0.0.1:11235/crawl_direct"
  /\ embeds t "boom".
Proof.
  intros boom t.
  pose proof (transport_error_reply Sample.env (Sample.always boom) Sample.request
                _ _ eq_refl eq_refl eq_refl eq_refl) as H.
  cbv zeta in H. destruct H as [H _].
  exact (H 500%Z (VObj [("detail", VStr "boom")]) "boom" eq_refl eq_refl eq_refl).
Defined.

(** C5 as the specification states it fails: a reply with status 400 whose
    body holds, under [message], an object with a field named [toString]
    makes the [catch] block throw a [TypeError] instead of returning a
    result. *)
Lemma transport_error_reply_counterexample :
  ~ (forall (env : environment) (net : nat -> outcome) (request : CallToolRequest)
            (e1 e2 : error) (code : Z) (body : value),
        name request = "crawl_urls" ->
        isValidCrawlRequest (arguments request) = true ->
        attempt env net 0 = Throw e1 ->
        attempt env net 1 = Throw e2 ->
        net 2%nat = Replied code body ->
        ((200 <=? code)%Z && (code <? 300)%Z) = false ->
        exists t, fst (call_tool env net request [])
                  = Ret (text_result t (Some true))).
Proof.
  intros H.
  destruct (H Sample.env (Sample.always (Replied 400 Sample.unprintable_message))
              Sample.request _ _ 400%Z Sample.unprintable_message
              eq_refl eq_refl eq_refl eq_refl eq_refl eq_refl) as [t Ht].
  discriminate Ht.
Qed.

(** ** Timeouts *)

(** C8 on the code.  Every crawl request of a call is sent through the
    default axios client and so carries [timeout = 0], that is no timeout;
    the 60000 ms are configured on [axiosInstance] only, which the start-up
    health probe uses and the crawl requests do not. *)
Theorem crawl_requests_without_timeout (env : environment) (net : nat -> outcome)
    (request : CallToolRequest) :
  name request = "crawl_urls" ->
  isValidCrawlRequest (arguments request) = true ->
  request_timeouts (snd (call_tool env net request [])) <> []
  /\ Forall (fun ms => ms = 0%Z)
            (request_timeouts (snd (call_tool env net request [])))
  /\ request_timeouts (snd (health_probe env net [])) = [60000%Z]
  /\ timeout (axiosInstance env) = 60000%Z.
Proof.
  intros Hname Hvalid.
  rewrite (call_tool_trace env net request Hname Hvalid). unfold transcript.
  refine (conj _ (conj _ (conj _ eq_refl))).
  - destruct (attempt env net 0); [discriminate |].
    destruct (attempt env net 1); discriminate.
  - destruct (attempt env net 0); [repeat constructor |].
    destruct (attempt env net 1); repeat constructor.
  - unfold health_probe, try_catch, bind, axios_request.
    cbn [requests filter List.length app].
    destruct (settle _ _); reflexivity.
Qed.

Lemma crawl_requests_without_timeout_witness :
  request_timeouts
    (snd (call_tool Sample.env (Sample.always (NoReply "socket hang up"))
            Sample.request []))
  <> []
  /\ Forall (fun ms => ms = 0%Z)
       (request_timeouts
          (snd (call_tool Sample.env (Sample.always (NoReply "socket hang up"))
                  Sample.request [])))
  /\ request_timeouts
       (snd (health_probe Sample.env (Sample.always (NoReply "socket hang up")) []))
     = [60000%Z]
  /\ timeout (axiosInstance Sample.env) = 60000%Z.
Proof.
  exact (crawl_requests_without_timeout Sample.env
           (Sample.always (NoReply "socket hang up")) Sample.request
           eq_refl eq_refl).
Defined.

(** ** What can be thrown *)

Lemma ToString_array (items : list value) :
  ToString (VArr items) = join_comma items.
Proof. induction items as [| x rest IH]; reflexivity. Qed.

Lemma ToString_throws :
  forall (v : value) (e : error), ToString v = Throw e -> isAxiosError e = false.
Proof.
  fix IH 1. intros v e.
  destruct v as [| | [|] | n | s | items | fields];
    try (cbn [ToString]; discriminate).
  - rewrite ToString_array.
    induction items as [| x rest IHrest]; [discriminate |].
    cbn [join_comma].
    assert (Hx : forall ex, (if nullish x then Ret EmptyString else ToString x)
                            = Throw ex -> isAxiosError ex = false).
    { intros ex. destruct (nullish x); [discriminate | apply IH]. }
    destruct (if nullish x then Ret EmptyString else ToString x) as [sx | ex];
      cbn [res_bind].
    + destruct rest as [| y rest']; [discriminate |].
      destruct (join_comma (y :: rest')) as [r | e']; cbn [res_bind];
        [discriminate |].
      intros H. injection H as <-. now apply IHrest.
    + intros H. injection H as <-. now apply Hx.
  - cbn [ToString]. destruct (object_to_primitive_fails fields); [| discriminate].
    intros H. injection H as <-. reflexivity.
Qed.

Lemma mapM_throws {A B : Type} (f : A -> res B) (l : list A) (e : error) :
  mapM f l = Throw e -> exists x, In x l /\ f x = Throw e.
Proof.
  induction l as [| x rest IH]; [discriminate |].
  cbn [mapM]. destruct (f x) as [y | ex] eqn:Hx; cbn [res_bind].
  - destruct (mapM f rest) as [ys | er]; cbn [res_bind]; [discriminate |].
    intros H. injection H as <-. destruct (IH eq_refl) as (x' & Hin & Hx').
    exists x'. split; [now right | assumption].
  - intros H. injection H as <-. exists x. split; [now left | assumption].
Qed.

Lemma extractMarkdown_throws (item : value) (e : error) :
  extractMarkdown item = Throw e ->
  nullish item = true /\ exists msg, e = TypeError msg.
Proof.
  destruct (nullish item) eqn:Hitem.
  - unfold extractMarkdown, get_prop. rewrite Hitem. cbn [res_bind].
    intros H. injection H as <-. split; [reflexivity | now eexists].
  - rewrite (extractMarkdown_run item Hitem). discriminate.
Qed.

Lemma reply_of_throws (r : AxiosResponse) (e : error) :
  reply_of r = Throw e -> isAxiosError e = false.
Proof.
  unfold reply_of. destruct (truthy (data r)); cbn [negb].
  - destruct (mapM extractMarkdown _) as [outs | em] eqn:Hm; cbn [res_bind].
    + unfold join. destruct (mapM join_element outs) as [parts | ej] eqn:Hj;
        cbn [res_bind]; [discriminate |].
      intros H. injection H as <-.
      destruct (mapM_throws _ _ _ Hj) as (x & _ & Hx). unfold join_element in Hx.
      destruct (nullish x); [discriminate | now apply (ToString_throws x)].
    + intros H. injection H as <-.
      destruct (mapM_throws _ _ _ Hm) as (x & _ & Hx).
      destruct (extractMarkdown_throws x em Hx) as (_ & msg & ->). reflexivity.
  - intros H. injection H as <-. reflexivity.
Qed.

Lemma call_tool_reply (env : environment) (net : nat -> outcome)
    (request : CallToolRequest) (r : AxiosResponse) :
  name request = "crawl_urls" ->
  isValidCrawlRequest (arguments request) = true ->
  delivered env net = Ret r ->
  fst (call_tool env net request []) = reply_of r.
Proof.
  intros Hname Hvalid Hr.
  rewrite (call_tool_delivered env net request r Hname Hvalid Hr).
  destruct (reply_of r) as [result | e] eqn:Hreply; [reflexivity |].
  now rewrite (on_error_rethrows e _ (reply_of_throws r e Hreply)).
Qed.

(** ** Further properties of the handler *)

(** X1. A call leaves the trace empty exactly when validation rejects it:
    every call to [crawl_urls] with valid arguments sends at least one
    request, and no other call sends any. *)
Theorem trace_empty_iff_rejected (env : environment) (net : nat -> outcome)
    (request : CallToolRequest) :
  snd (call_tool env net request []) = []
  <-> ~ (name request = "crawl_urls"
         /\ isValidCrawlRequest (arguments request) = true).
Proof.
  destruct (String.eqb_spec (name request) "crawl_urls") as [Hname | Hname].
  - destruct (isValidCrawlRequest (arguments request)) eqn:Hvalid.
    + rewrite (call_tool_trace env net request Hname Hvalid). unfold transcript.
      split.
      * destruct (attempt env net 0); [discriminate |].
        destruct (attempt env net 1); discriminate.
      * intros H. exfalso. apply H. now split.
    + split; [intros _ [_ H]; discriminate H |].
      intros _. unfold call_tool. rewrite Hname, Hvalid. reflexivity.
  - split; [intros _ [H _]; contradiction |].
    intros _. unfold call_tool.
    apply String.eqb_neq in Hname. rewrite Hname. reflexivity.
Qed.

Lemma lookup_app (k : string) (l l' : list (string * value)) :
  lookup k (l ++ l')%list
  = match lookup k l with
    | Some v => Some v
    | None => lookup k l'
    end.
Proof.
  induction l as [| [k' v] rest IH]; [reflexivity |].
  cbn [lookup app]. destruct (k =? k'); [reflexivity | exact IH].
Qed.

(** X2. The request body takes its [urls] from the arguments and every other
    field from the fixed configuration: whatever else the arguments hold,
    also under the name of a configuration field, does not reach the
    crawling service. *)
Theorem payload_fields (args : value) (k : string) :
  field (payload args) "urls" = field args "urls"
  /\ (k <> "urls" -> field (payload args) k = field (VObj DEFAULT_CONFIG) k).
Proof.
  split; [reflexivity |].
  intros Hk. unfold payload. cbn [field]. rewrite lookup_app.
  destruct (lookup k DEFAULT_CONFIG); [reflexivity |].
  cbn [lookup]. apply String.eqb_neq in Hk. now rewrite Hk.
Qed.

Lemma payload_fields_witness :
  field (payload Scenario.noisy_args) "priority" = VNum 10
  /\ field (payload Scenario.noisy_args) "bypass_cache" = VBool true.
Proof.
  split.
  - refine (proj2 (payload_fields Scenario.noisy_args "priority") _). discriminate.
  - refine (proj2 (payload_fields Scenario.noisy_args "bypass_cache") _).
    discriminate.
Defined.

(** X3. Every request of a valid call is the same request: a POST to
    [API_URL/crawl_direct] with the same headers and the same body, sent
    between one and three times. *)
Theorem retries_resend_same_request (env : environment) (net : nat -> outcome)
    (request : CallToolRequest) :
  name request = "crawl_urls" ->
  isValidCrawlRequest (arguments request) = true ->
  let sent := requests (snd (call_tool env net request [])) in
  Forall (fun ev => ev = post_event env (arguments request)) sent
  /\ (1 <= List.length sent <= 3)%nat
  /\ url (post_config env) = Some (API_URL env ++ "/crawl_direct")
  /\ method (post_config env) = Some "post".
Proof.
  intros Hname Hvalid sent. unfold sent.
  rewrite (call_tool_trace env net request Hname Hvalid). unfold transcript.
  refine (conj _ (conj _ (conj eq_refl eq_refl))).
  - destruct (attempt env net 0); [repeat constructor |].
    destruct (attempt env net 1); repeat constructor.
  - destruct (attempt env net 0); [cbn; lia |].
    destruct (attempt env net 1); cbn; lia.
Qed.

Lemma retries_resend_same_request_witness :
  Forall (fun ev => ev = post_event Sample.env (arguments Sample.request))
         (requests (snd (call_tool Sample.env (Sample.third (Replied 200 Sample.two_pages))
                           Sample.request []))).
Proof.
  exact (proj1 (retries_resend_same_request Sample.env
                  (Sample.third (Replied 200 Sample.two_pages)) Sample.request
                  eq_refl eq_refl)).
Defined.

(** X4. In the trace of a valid call the delays are the first [n - 1] of
    1000 ms and 2000 ms, [n] being the number of requests sent, and the last
    event is a request: a wait only ever separates two attempts, and a call
    waits 3000 ms at most in total. *)
Theorem waits_only_between_attempts (env : environment) (net : nat -> outcome)
    (request : CallToolRequest) :
  name request = "crawl_urls" ->
  isValidCrawlRequest (arguments request) = true ->
  let tr := snd (call_tool env net request []) in
  delays tr = firstn (List.length (requests tr) - 1) [1000%Z; 2000%Z]
  /\ (exists front, tr = (front ++ [post_event env (arguments request)])%list)
  /\ (fold_right Z.add 0%Z (delays tr) <= 3000)%Z.
Proof.
  intros Hname Hvalid tr. unfold tr.
  rewrite (call_tool_trace env net request Hname Hvalid). unfold transcript.
  destruct (attempt env net 0).
  - refine (conj eq_refl (conj _ _)); [now exists [] | cbn; lia].
  - destruct (attempt env net 1).
    + refine (conj eq_refl (conj _ _)); [| cbn; lia].
      now exists [post_event env (arguments request); ESetTimeout (backoff 1)].
    + refine (conj eq_refl (conj _ _)); [| cbn; lia].
      now exists [post_event env (arguments request); ESetTimeout (backoff 1);
                  post_event env (arguments request); ESetTimeout (backoff 2)].
Qed.

Lemma waits_only_between_attempts_witness :
  delays (snd (call_tool Sample.env (Sample.third (Replied 200 Sample.two_pages))
                 Sample.request []))
  = [1000%Z; 2000%Z].
Proof.
  exact (proj1 (waits_only_between_attempts Sample.env
                  (Sample.third (Replied 200 Sample.two_pages)) Sample.request
                  eq_refl eq_refl)).
Defined.

Lemma call_tool_exhausted (env : environment) (net : nat -> outcome)
    (request : CallToolRequest) (e1 e2 e3 : error) :
  name request = "crawl_urls" ->
  isValidCrawlRequest (arguments request) = true ->
  attempt env net 0 = Throw e1 ->
  attempt env net 1 = Throw e2 ->
  attempt env net 2 = Throw e3 ->
  fst (call_tool env net request [])
  = fst (on_error e3 (transcript env net (arguments request))).
Proof.
  intros Hname Hvalid H0 H1 H2.
  rewrite (call_tool_run env net request Hname Hvalid).
  unfold delivered. now rewrite H0, H1, H2.
Qed.

Lemma opt_prop_of_non_object (body : value) (k : string) :
  (forall fields, body <> VObj fields) -> opt_prop body k = VUndefined.
Proof.
  intros Hbody. destruct body; try reflexivity. now destruct (Hbody fields).
Qed.

(** X5. When the third attempt also fails and brought no response at all
    (connection refused, timeout), the call still returns a result flagged
    [isError]; its text names the status as [undefined] and carries the
    reason of the failure as the message. *)
Theorem network_failure_reply (env : environment) (net : nat -> outcome)
    (request : CallToolRequest) (e1 e2 : error) (reason : string) :
  name request = "crawl_urls" ->
  isValidCrawlRequest (arguments request) = true ->
  attempt env net 0 = Throw e1 ->
  attempt env net 1 = Throw e2 ->
  net 2%nat = NoReply reason ->
  fst (call_tool env net request [])
  = Ret (text_result
           ("Crawling service error (undefined) for "
              ++ ("POST " ++ API_URL env ++ "/crawl_direct") ++ ": " ++ reason)
           (Some true)).
Proof.
  intros Hname Hvalid H0 H1 Hnet.
  rewrite (call_tool_exhausted env net request e1 e2
             (AxiosError reason (Some (post_config env)) None) Hname Hvalid H0 H1)
    by (unfold attempt; now rewrite Hnet).
  unfold on_error, bind, lift, ret, js_or. reflexivity.
Qed.

Lemma network_failure_reply_witness :
  fst (call_tool Sample.env (Sample.always (NoReply "timeout of 60000ms exceeded"))
         Sample.request [])
  = Ret (text_result
           "Crawling service error (undefined) for POST http://127.0.0.1:11235/crawl_direct: timeout of 60000ms exceeded"
           (Some true)).
Proof.
  exact (network_failure_reply Sample.env
           (Sample.always (NoReply "timeout of 60000ms exceeded")) Sample.request
           _ _ "timeout of 60000ms exceeded" eq_refl eq_refl eq_refl eq_refl eq_refl).
Defined.

(** X6. When the failing reply's body is not an object (a text or HTML error
    page, an array, a number, nothing), the message of the error report is
    the axios text "Request failed with status code N": nothing of such a
    body is shown. *)
Theorem non_object_error_body (env : environment) (net : nat -> outcome)
    (request : CallToolRequest) (e1 e2 : error) (code : Z) (body : value) :
  name request = "crawl_urls" ->
  isValidCrawlRequest (arguments request) = true ->
  attempt env net 0 = Throw e1 ->
  attempt env net 1 = Throw e2 ->
  net 2%nat = Replied code body ->
  ((200 <=? code)%Z && (code <? 300)%Z) = false ->
  (forall fields, body <> VObj fields) ->
  fst (call_tool env net request [])
  = Ret (text_result
           ("Crawling service error (" ++ string_of_Z code ++ ") for "
              ++ ("POST " ++ API_URL env ++ "/crawl_direct") ++ ": "
              ++ "Request failed with status code " ++ string_of_Z code)
           (Some true)).
Proof.
  intros Hname Hvalid H0 H1 Hnet Hcode Hbody.
  rewrite (call_tool_exhausted env net request e1 e2
             (AxiosError ("Request failed with status code " ++ string_of_Z code)
                         (Some (post_config env))
                         (Some {| status := code; data := body |}))
             Hname Hvalid H0 H1)
    by (unfold attempt, settle; now rewrite Hnet, Hcode).
  unfold on_error, bind, lift, ret. cbn [status data].
  rewrite !(opt_prop_of_non_object body _ Hbody).
  unfold js_or. reflexivity.
Qed.

Lemma non_object_error_body_witness :
  fst (call_tool Sample.env (Sample.always (Replied 503 (VStr "busy")))
         Sample.request [])
  = Ret (text_result
           "Crawling service error (503) for POST http://127.0.0.1:11235/crawl_direct: Request failed with status code 503"
           (Some true)).
Proof.
  refine (non_object_error_body Sample.env (Sample.always (Replied 503 (VStr "busy")))
            Sample.request _ _ 503 (VStr "busy")
            eq_refl eq_refl eq_refl eq_refl eq_refl eq_refl _).
  discriminate.
Defined.

(** X7. When the third rejection is an axios error that carries neither a
    request configuration nor a response, the report reads "Unknown request"
    in place of the method and URL. *)
Theorem unknown_request_reply (env : environment) (net : nat -> outcome)
    (request : CallToolRequest) (e1 e2 : error) (reason : string) :
  name request = "crawl_urls" ->
  isValidCrawlRequest (arguments request) = true ->
  attempt env net 0 = Throw e1 ->
  attempt env net 1 = Throw e2 ->
  net 2%nat = Rejected (AxiosError reason None None) ->
  fst (call_tool env net request [])
  = Ret (text_result
           ("Crawling service error (undefined) for Unknown request: " ++ reason)
           (Some true)).
Proof.
  intros Hname Hvalid H0 H1 Hnet.
  rewrite (call_tool_exhausted env net request e1 e2
             (AxiosError reason None None) Hname Hvalid H0 H1)
    by (unfold attempt; now rewrite Hnet).
  unfold on_error, bind, lift, ret, js_or. reflexivity.
Qed.

Lemma unknown_request_reply_witness :
  fst (call_tool Sample.env
         (Scenario.rejected_third (AxiosError "canceled" None None))
         Sample.request [])
  = Ret (text_result
           "Crawling service error (undefined) for Unknown request: canceled"
           (Some true)).
Proof.
  exact (unknown_request_reply Sample.env
           (Scenario.rejected_third (AxiosError "canceled" None None))
           Sample.request _ _ "canceled" eq_refl eq_refl eq_refl eq_refl eq_refl).
Defined.

(** ** Results and faults *)

(** X8. Whatever a call returns (rather than throws) is a single text block
    of one of two kinds: without error flag, and then some attempt delivered
    a response with a truthy body; or flagged [isError: true], and then all
    three requests were sent and the last one failed with an axios error.
    The flag is never [false]. *)
Theorem result_kinds (env : environment) (net : nat -> outcome)
    (request : CallToolRequest) (result : ToolCallResult) :
  fst (call_tool env net request []) = Ret result ->
  exists t,
    (result = text_result t None
     /\ exists r, delivered env net = Ret r /\ truthy (data r) = true)
    \/ (result = text_result t (Some true)
        /\ (exists e, delivered env net = Throw e /\ isAxiosError e = true)
        /\ List.length (requests (snd (call_tool env net request []))) = 3%nat).
Proof.
  destruct (String.eqb_spec (name request) "crawl_urls") as [Hname | Hname];
    [| unfold call_tool; apply String.eqb_neq in Hname; rewrite Hname;
       discriminate].
  destruct (isValidCrawlRequest (arguments request)) eqn:Hvalid;
    [| unfold call_tool; rewrite Hname, Hvalid; discriminate].
  rewrite (call_tool_trace env net request Hname Hvalid).
  destruct (delivered env net) as [r | e] eqn:Hd.
  - rewrite (call_tool_reply env net request r Hname Hvalid Hd).
    unfold reply_of. destruct (truthy (data r)) eqn:Hbody; [| discriminate].
    cbn [negb]. destruct (mapM extractMarkdown _); [| discriminate].
    cbn [res_bind]. destruct (join separator _) as [joined |]; [| discriminate].
    cbn [res_bind]. intros H. injection H as <-.
    exists joined. left. split; [reflexivity | now exists r].
  - rewrite (call_tool_run env net request Hname Hvalid), Hd. cbn [res_bind].
    assert (Hlen : List.length (requests (transcript env net (arguments request)))
                   = 3%nat).
    { unfold delivered in Hd. unfold transcript.
      destruct (attempt env net 0); [discriminate Hd |].
      destruct (attempt env net 1); [discriminate Hd | reflexivity]. }
    destruct e as [msg cfg rsp | | |]; try discriminate.
    unfold on_error, bind, lift, ret.
    destruct (ToString _) as [code |]; [| discriminate].
    destruct (ToString _) as [shown |]; [| discriminate].
    cbn [fst]. intros H. injection H as <-.
    eexists. right. split; [reflexivity |]. split; [| exact Hlen].
    eexists. split; reflexivity.
Qed.

Lemma result_kinds_witness :
  exists t,
    (text_result EmptyString None = text_result t None
     /\ exists r,
          delivered Sample.env (Sample.always (Replied 200 (VObj [("results", VArr [])])))
          = Ret r
          /\ truthy (data r) = true)
    \/ (text_result EmptyString None = text_result t (Some true)
        /\ (exists e,
              delivered Sample.env
                (Sample.always (Replied 200 (VObj [("results", VArr [])])))
              = Throw e
              /\ isAxiosError e = true)
        /\ List.length
             (requests
                (snd (call_tool Sample.env
                        (Sample.always (Replied 200 (VObj [("results", VArr [])])))
                        Sample.request [])))
           = 3%nat).
Proof.
  exact (result_kinds Sample.env
           (Sample.always (Replied 200 (VObj [("results", VArr [])])))
           Sample.request (text_result EmptyString None) eq_refl).
Defined.

(** X9. No call ever throws an axios error: an axios error that reaches the
    outer [catch] is turned into a result (or, should its message not
    convert to a string, into a [TypeError]); the faults of a call are
    protocol faults, type errors and whatever else a request was rejected
    with. *)
Theorem faults_are_not_axios_errors (env : environment) (net : nat -> outcome)
    (request : CallToolRequest) (e : error) :
  fst (call_tool env net request []) = Throw e -> isAxiosError e = false.
Proof.
  destruct (String.eqb_spec (name request) "crawl_urls") as [Hname | Hname];
    [| unfold call_tool; apply String.eqb_neq in Hname; rewrite Hname;
       intros H; injection H as <-; reflexivity].
  destruct (isValidCrawlRequest (arguments request)) eqn:Hvalid;
    [| unfold call_tool; rewrite Hname, Hvalid;
       intros H; injection H as <-; reflexivity].
  rewrite (call_tool_run env net request Hname Hvalid).
  destruct (res_bind _ _) as [result | e']; [discriminate |].
  destruct e' as [msg cfg rsp | c m | m | v];
    try (intros H; injection H as <-; reflexivity).
  unfold on_error, bind, lift, ret.
  destruct (ToString _) as [code | ec] eqn:Hc;
    [| intros H; injection H as <-; exact (ToString_throws _ _ Hc)].
  destruct (ToString _) as [shown | es] eqn:Hs in |- *;
    [discriminate | intros H; injection H as <-; exact (ToString_throws _ _ Hs)].
Qed.

Lemma faults_are_not_axios_errors_witness :
  isAxiosError (McpError InternalError "Empty response from crawling service")
  = false.
Proof.
  exact (faults_are_not_axios_errors Sample.env (Sample.third (Replied 200 VNull))
           Sample.request _ eq_refl).
Defined.

(** ** The shape of the response body *)

Lemma reply_of_data (r r' : AxiosResponse) :
  data r = data r' -> reply_of r = reply_of r'.
Proof. unfold reply_of. now intros ->. Qed.

(** X10. The outcome of a call that was delivered a response depends on the
    body of that response only: not on its status, not on the URLs asked
    for, not on the failures of earlier attempts, not on the environment. *)
Theorem reply_depends_on_body_only
    (env env' : environment) (net net' : nat -> outcome)
    (request request' : CallToolRequest) (r r' : AxiosResponse) :
  name request = "crawl_urls" ->
  isValidCrawlRequest (arguments request) = true ->
  name request' = "crawl_urls" ->
  isValidCrawlRequest (arguments request') = true ->
  delivered env net = Ret r ->
  delivered env' net' = Ret r' ->
  data r = data r' ->
  fst (call_tool env net request []) = fst (call_tool env' net' request' []).
Proof.
  intros Hname Hvalid Hname' Hvalid' Hr Hr' Hdata.
  rewrite (call_tool_reply env net request r Hname Hvalid Hr).
  rewrite (call_tool_reply env' net' request' r' Hname' Hvalid' Hr').
  now apply reply_of_data.
Qed.

Lemma reply_depends_on_body_only_witness :
  fst (call_tool Sample.env (Sample.always (Replied 200 Sample.two_pages))
         Sample.request [])
  = fst (call_tool Scenario.token_env (Sample.third (Replied 201 Sample.two_pages))
           {| name := "crawl_urls"; arguments := Scenario.noisy_args |} []).
Proof.
  exact (reply_depends_on_body_only
           Sample.env Scenario.token_env
           (Sample.always (Replied 200 Sample.two_pages))
           (Sample.third (Replied 201 Sample.two_pages))
           Sample.request {| name := "crawl_urls"; arguments := Scenario.noisy_args |}
           {| status := 200; data := Sample.two_pages |}
           {| status := 201; data := Sample.two_pages |}
           eq_refl eq_refl eq_refl eq_refl eq_refl eq_refl eq_refl).
Defined.

(** X11. A body that is a bare array and a body that is an object holding
    the same array under [results] lead to the same outcome of the call. *)
Theorem bare_array_as_results (env : environment) (net net' : nat -> outcome)
    (request : CallToolRequest) (r r' : AxiosResponse) (items : list value) :
  name request = "crawl_urls" ->
  isValidCrawlRequest (arguments request) = true ->
  delivered env net = Ret r ->
  delivered env net' = Ret r' ->
  data r = VArr items ->
  field (data r') "results" = VArr items ->
  fst (call_tool env net request []) = fst (call_tool env net' request []).
Proof.
  intros Hname Hvalid Hr Hr' Hbare Hwrapped.
  rewrite (call_tool_reply env net request r Hname Hvalid Hr).
  rewrite (call_tool_reply env net' request r' Hname Hvalid Hr').
  unfold reply_of, resolve_results. rewrite Hwrapped, Hbare.
  destruct (data r') as [| | | | | | fields]; try discriminate Hwrapped.
  reflexivity.
Qed.

Lemma bare_array_as_results_witness :
  fst (call_tool Sample.env (Sample.always (Replied 200 (VArr [Sample.plain])))
         Sample.request [])
  = fst (call_tool Sample.env
           (Sample.always (Replied 200 (VObj [("results", VArr [Sample.plain])])))
           Sample.request []).
Proof.
  exact (bare_array_as_results Sample.env
           (Sample.always (Replied 200 (VArr [Sample.plain])))
           (Sample.always (Replied 200 (VObj [("results", VArr [Sample.plain])])))
           Sample.request
           {| status := 200; data := VArr [Sample.plain] |}
           {| status := 200; data := VObj [("results", VArr [Sample.plain])] |}
           [Sample.plain] eq_refl eq_refl eq_refl eq_refl eq_refl eq_refl).
Defined.

(** X12. When the delivered body is truthy, is no array and has no array
    under [results], the call's outcome is the normalizer's output for the
    body itself, converted to a string: the text holds no separator. *)
Theorem single_item_reply (env : environment) (net : nat -> outcome)
    (request : CallToolRequest) (r : AxiosResponse) :
  name request = "crawl_urls" ->
  isValidCrawlRequest (arguments request) = true ->
  delivered env net = Ret r ->
  truthy (data r) = true ->
  isArray (data r) = false ->
  isArray (field (data r) "results") = false ->
  fst (call_tool env net request [])
  = (out <- extractMarkdown (data r) ;;
     shown <- join_element out ;;
     Ret (text_result shown None))%res.
Proof.
  intros Hname Hvalid Hr Hbody Harr Hres.
  rewrite (call_tool_reply env net request r Hname Hvalid Hr).
  unfold reply_of, resolve_results. rewrite Hbody, Harr, Hres, andb_false_r.
  cbn [negb mapM]. destruct (extractMarkdown (data r)) as [out |]; [| reflexivity].
  cbn [res_bind]. unfold join. cbn [mapM].
  destruct (join_element out); reflexivity.
Qed.

Lemma single_item_reply_witness :
  fst (call_tool Sample.env (Sample.always (Replied 200 Sample.plain))
         Sample.request [])
  = Ret (text_result "B" None)
  /\ fst (call_tool Sample.env (Sample.always (Replied 200 Scenario.large_number_page))
            Sample.request [])
     = Ret (text_result "1e+21" None).
Proof.
  split.
  - exact (single_item_reply Sample.env (Sample.always (Replied 200 Sample.plain))
             Sample.request {| status := 200; data := Sample.plain |}
             eq_refl eq_refl eq_refl eq_refl eq_refl eq_refl).
  - exact (single_item_reply Sample.env
             (Sample.always (Replied 200 Scenario.large_number_page))
             Sample.request {| status := 200; data := Scenario.large_number_page |}
             eq_refl eq_refl eq_refl eq_refl eq_refl eq_refl).
Defined.

Lemma mapM_extractMarkdown_nullish (items : list value) :
  (exists v, In v items /\ nullish v = true) ->
  exists msg, mapM extractMarkdown items = Throw (TypeError msg).
Proof.
  induction items as [| x rest IH]; intros (v & Hin & Hv); [destruct Hin |].
  cbn [mapM]. destruct (nullish x) eqn:Hx.
  - destruct (extractMarkdown x) as [out | e] eqn:Hout.
    + unfold extractMarkdown, get_prop in Hout. rewrite Hx in Hout.
      discriminate Hout.
    + destruct (extractMarkdown_throws x e Hout) as (_ & msg & ->).
      now exists msg.
  - rewrite (extractMarkdown_run x Hx). cbn [res_bind].
    destruct Hin as [<- | Hin]; [congruence |].
    destruct (IH (ex_intro _ v (conj Hin Hv))) as [msg ->]. now exists msg.
Qed.

(** X13. One [null] or [undefined] element anywhere in the result sequence
    makes the whole call end in a [TypeError] fault: the markdown of the
    other elements is lost with it. *)
Theorem nullish_item_faults_call (env : environment) (net : nat -> outcome)
    (request : CallToolRequest) (r : AxiosResponse) (v : value) :
  name request = "crawl_urls" ->
  isValidCrawlRequest (arguments request) = true ->
  delivered env net = Ret r ->
  truthy (data r) = true ->
  In v (resolve_results (data r)) ->
  nullish v = true ->
  exists msg, fst (call_tool env net request []) = Throw (TypeError msg).
Proof.
  intros Hname Hvalid Hr Hbody Hin Hv.
  rewrite (call_tool_reply env net request r Hname Hvalid Hr).
  unfold reply_of. rewrite Hbody. cbn [negb].
  destruct (mapM_extractMarkdown_nullish _ (ex_intro _ v (conj Hin Hv))) as [msg ->].
  now exists msg.
Qed.

Lemma nullish_item_faults_call_witness :
  exists msg,
    fst (call_tool Sample.env
           (Sample.always (Replied 200 (VObj [("results", VArr [Sample.plain; VNull])])))
           Sample.request [])
    = Throw (TypeError msg).
Proof.
  exact (nullish_item_faults_call Sample.env
           (Sample.always (Replied 200 (VObj [("results", VArr [Sample.plain; VNull])])))
           Sample.request
           {| status := 200; data := VObj [("results", VArr [Sample.plain; VNull])] |}
           VNull eq_refl eq_refl eq_refl eq_refl (or_intror (or_introl eq_refl))
           eq_refl).
Defined.

(** ** Arguments, normalizer output, start-up probe, tool listing *)

Lemma for_attempts_payload (env : environment) (net : nat -> outcome)
    (args args' : value) :
  payload args = payload args' ->
  forall (n a : nat) (vars : loop_vars) (tr : list event),
    for_attempts env net n args a vars tr = for_attempts env net n args' a vars tr.
Proof.
  intros Hp. induction n as [| n IH]; intros a vars tr; [reflexivity |].
  rewrite !for_attempts_step. destruct (a <=? retryCount)%nat; [| reflexivity].
  assert (Hbody : attempt_body env net args a vars tr
                  = attempt_body env net args' a vars tr)
    by (unfold attempt_body; now rewrite Hp).
  rewrite Hbody.
  destruct (attempt_body env net args' a vars tr) as [[[[|] v] | e] tr'];
    [reflexivity | apply IH | reflexivity].
Qed.

(** X14. Of an arguments object only the [urls] field matters: two calls of
    the same tool whose arguments agree on [urls] have the same outcome and
    the same trace, whatever other fields the arguments hold. *)
Theorem only_urls_matter (env : environment) (net : nat -> outcome)
    (tool : string) (fields fields' : list (string * value)) (tr : list event) :
  lookup "urls" fields = lookup "urls" fields' ->
  call_tool env net {| name := tool; arguments := VObj fields |} tr
  = call_tool env net {| name := tool; arguments := VObj fields' |} tr.
Proof.
  intros Hurls.
  assert (Hvalid : isValidCrawlRequest (VObj fields)
                   = isValidCrawlRequest (VObj fields'))
    by (unfold isValidCrawlRequest; cbn [field]; now rewrite Hurls).
  assert (Hp : payload (VObj fields) = payload (VObj fields'))
    by (unfold payload; cbn [field]; now rewrite Hurls).
  unfold call_tool. cbn [name arguments]. rewrite Hvalid.
  destruct (negb (tool =? "crawl_urls")); [reflexivity |].
  destruct (negb (isValidCrawlRequest (VObj fields'))); [reflexivity |].
  unfold try_catch, crawl, bind.
  now rewrite (for_attempts_payload env net _ _ Hp).
Qed.

Lemma only_urls_matter_witness :
  call_tool Sample.env (Sample.always (Replied 200 Sample.two_pages))
    {| name := "crawl_urls"; arguments := Scenario.noisy_args |} []
  = call_tool Sample.env (Sample.always (Replied 200 Sample.two_pages))
      {| name := "crawl_urls"; arguments := Scenario.plain_args |} [].
Proof.
  exact (only_urls_matter Sample.env (Sample.always (Replied 200 Sample.two_pages))
           "crawl_urls"
           [ ("priority", VNum 1);
             ("urls", VArr [VStr "https://example.com"]);
             ("bypass_cache", VBool false) ]
           [("urls", VArr [VStr "https://example.com"])] [] eq_refl).
Defined.

(** X15. What the normalizer returns is never [null] or [undefined], so the
    join prints it through [ToString] and never as an empty slot; a string
    item comes back unchanged, and a string output is a fixed point of the
    normalizer. *)
Theorem normalizer_output (item out : value) :
  extractMarkdown item = Ret out ->
  nullish out = false
  /\ join_element out = ToString out
  /\ (is_string item = true -> out = item)
  /\ (is_string out = true -> extractMarkdown out = Ret out).
Proof.
  intros Hout.
  assert (Hitem : nullish item = false).
  { destruct (nullish item) eqn:H; [| reflexivity].
    unfold extractMarkdown, get_prop in Hout. rewrite H in Hout.
    discriminate Hout. }
  assert (Hnn : nullish out = false).
  { rewrite (extractMarkdown_run item Hitem) in Hout. injection Hout as <-.
    destruct (truthy (field (field item "markdown_v2") "markdown_with_citations"))
      eqn:Hc; [now destruct (field _ "markdown_with_citations") |].
    destruct (truthy (field item "markdown")) eqn:Hm;
      [now destruct (field item "markdown") |].
    destruct (is_string item); [assumption | reflexivity]. }
  refine (conj Hnn (conj _ (conj _ _))).
  - unfold join_element. now rewrite Hnn.
  - intros Hs. destruct item; try discriminate Hs.
    cbn in Hout. now injection Hout as <-.
  - intros Hs. destruct out; try discriminate Hs. reflexivity.
Qed.

Lemma normalizer_output_witness :
  nullish (VStr "B") = false
  /\ join_element (VStr "B") = ToString (VStr "B")
  /\ (is_string Sample.plain = true -> VStr "B" = Sample.plain)
  /\ (is_string (VStr "B") = true -> extractMarkdown (VStr "B") = Ret (VStr "B")).
Proof.
  exact (normalizer_output Sample.plain (VStr "B") eq_refl).
Defined.

(** X16. The start-up probe never fails, whatever becomes of its request:
    it sends one GET for [/health] through the configured client (base URL,
    authorization header, 60000 ms timeout) and returns. *)
Theorem health_probe_is_not_fatal (env : environment) (net : nat -> outcome)
    (tr : list event) :
  health_probe env net tr
  = (Ret tt, (tr ++ [ERequest (health_config env) None])%list).
Proof.
  assert (Hcfg : request_config (axiosInstance env) "get" "/health" []
                 = health_config env).
  { unfold request_config, axiosInstance, axios_create, health_config.
    cbn [baseURL headers timeout axios_defaults app]. now rewrite app_nil_r. }
  unfold health_probe, try_catch, bind, axios_request, ret. rewrite Hcfg.
  destruct (settle _ _); reflexivity.
Qed.

(** X17. The tools the listing announces are the tools the call handler
    knows: a call is refused as unknown, before anything is sent, exactly
    when its name is not in the listing. *)
Theorem listed_tools_are_dispatched (env : environment) (net : nat -> outcome)
    (request : CallToolRequest) :
  call_tool env net request []
  = (Throw (McpError MethodNotFound ("Unknown tool: " ++ name request)), [])
  <-> ~ In (name request) (tool_names list_tools).
Proof.
  change (tool_names list_tools) with ["crawl_urls"].
  destruct (String.eqb_spec (name request) "crawl_urls") as [Hname | Hname].
  - split; [| intros H; exfalso; apply H; now left].
    intros Hcall _.
    destruct (isValidCrawlRequest (arguments request)) eqn:Hvalid.
    + pose proof (call_tool_trace env net request Hname Hvalid) as Htr.
      rewrite Hcall in Htr. unfold transcript in Htr. cbn [snd] in Htr.
      destruct (attempt env net 0); [discriminate Htr |].
      destruct (attempt env net 1); discriminate Htr.
    + unfold call_tool in Hcall. rewrite Hname, Hvalid in Hcall.
      discriminate Hcall.
  - split; [intros _ [H | []]; now apply Hname |].
    intros _. unfold call_tool.
    apply String.eqb_neq in Hname. now rewrite Hname.
Qed.

(** X18. The crawl requests carry the headers the configured client was
    given: an [Authorization: Bearer] header with the token when a token
    that is not the empty string is set, and no header at all otherwise, in
    which case the requests go out unauthenticated. *)
Theorem authorization_header (env : environment) :
  headers (post_config env) = headers (axiosInstance env)
  /\ (forall token,
        AUTH_TOKEN env = Some token -> token <> EmptyString ->
        headers (post_config env) = [("Authorization", "Bearer " ++ token)])
  /\ (AUTH_TOKEN env = None \/ AUTH_TOKEN env = Some EmptyString ->
      headers (post_config env) = []).
Proof.
  unfold post_config, axiosInstance, request_config, axios_create, auth_headers.
  cbn [headers axios_defaults app].
  refine (conj eq_refl (conj _ _)).
  - intros token -> Hne. apply String.eqb_neq in Hne. now rewrite Hne.
  - intros [-> | ->]; reflexivity.
Qed.

Lemma authorization_header_witness :
  headers (post_config Scenario.token_env) = [("Authorization", "Bearer s3cret")].
Proof.
  refine (proj1 (proj2 (authorization_header Scenario.token_env)) "s3cret" eq_refl _).
  discriminate.
Defined.
